(** * WinApiDatabase: the key-value store of [Database.py]

    A shallow embedding of the three classes of [Database.py]
    ([DataBase], [SerializedDataBase], [SynchronizedDataBase]) and of the
    module-level function [value_delete], followed by the properties of the
    specification that are about them.

    The Python dictionary [self.data] is a [gmap]; Python values are the
    inductive [pyobj], in which [PyNone] is a value like any other.  The
    Win32 objects the code drives (three mutexes, one semaphore, one file)
    are fields of an explicit state that every operation threads through,
    together with the list of API calls made so far.  An operation either
    returns, raises, or waits forever on a gate that is never signalled. *)

From Stdlib Require Import ZArith.
From Stdlib.Strings Require Import Byte.
From stdpp Require Import base countable gmap strings list.

Set Warnings "-register-all".

(** ** Python values *)

(** Payload values: what the callers store.  [PyList] gives nesting. *)
Inductive pyobj : Type :=
  | PyNone
  | PyBool (b : bool)
  | PyInt (z : Z)
  | PyStr (s : string)
  | PyList (l : list pyobj).

(** Dictionary keys: the hashable values the callers use (the drivers use
    integers). *)
Inductive pykey : Type :=
  | KInt (z : Z)
  | KStr (s : string).

Global Instance pykey_eq_dec : EqDecision pykey.
Proof. solve_decision. Defined.

Global Instance pykey_countable : Countable pykey.
Proof.
  refine (inj_countable'
            (fun k => match k with KInt z => inl z | KStr s => inr s end)
            (fun x => match x with inl z => KInt z | inr s => KStr s end) _).
  intros []; reflexivity.
Defined.

(** [self.data]. *)
Abbreviation store := (gmap pykey pyobj).

(** ** class DataBase *)

Module DataBase.

(** [DataBase.__init__]: [self.data = {}]. *)
Definition init : store := ∅.

(** [set_value(key, value)]: the returned boolean and the new [self.data]. *)
Definition set_value (key : pykey) (value : pyobj) (data : store)
  : bool * store :=
  match data !! key with
  | Some _ => (false, data)
  | None => (true, <[key := value]> data)
  end.

(** [get_value(key)]: [self.data.get(key, None)] under [if key in
    self.data], and the implicit [return None] otherwise. *)
Definition get_value (key : pykey) (data : store) : pyobj :=
  match data !! key with
  | Some v => default PyNone (data !! key)
  | None => PyNone
  end.

(** [delete(key)]: [self.data.pop(key, None)] under [if key in self.data],
    and the implicit [return None] otherwise. *)
Definition delete (key : pykey) (data : store) : pyobj * store :=
  match data !! key with
  | Some _ => (default PyNone (data !! key), base.delete key data)
  | None => (PyNone, data)
  end.

End DataBase.

(** ** The Win32 objects and the explicit state *)

(** A mutex as the calling thread sees it.  Win32 mutexes are recursive:
    the owner may wait on them again and must release once per wait. *)
Inductive mutex_state : Type :=
  | Unowned
  | Owned (again : nat)   (* by the caller, waited on [S again] times *)
  | OwnedElsewhere.       (* by another thread or process *)

(** A semaphore: the slots still available and the maximum count. *)
Record semaphore_state : Type := Semaphore {
  sem_count : nat;
  sem_max : nat
}.

(** The handles an instance keeps in its attributes. *)
Inductive mutex_handle : Type := FileMutex | Mutex | WriteLock.
Inductive handle : Type :=
  | HMutex (m : mutex_handle)
  | ReadSemaphore.
Coercion HMutex : mutex_handle >-> handle.

Inductive access : Type := GENERIC_READ | GENERIC_WRITE.

(** The API calls, as they are logged. *)
Inductive api_call : Type :=
  | CallCreateMutex (name : option string)
  | CallCreateSemaphore (initial maximum : nat) (name : option string)
  | CallWait (h : handle)
  | CallReleaseMutex (m : mutex_handle)
  | CallReleaseSemaphore (count : nat)
  | CallCreateFile (name : string) (a : access)
  | CallWriteFile (name : string) (bytes : list byte)
  | CallReadFile (name : string) (size : nat)
  | CallCloseHandle (h : option string).

(** What can be raised. *)
Inductive exn : Type :=
  | ApiError (api : string)      (* the named pywin32 call raised *)
  | UnpicklingError              (* [pickle.loads] on bytes that are no pickle *)
  | RuntimeError (msg : string)
  | AttributeError (name : string).   (* the instance has no such attribute *)

(** How the file system behaves during one [save] or [load]. *)
Inductive io_fault : Type :=
  | NoFault
  | CreateFileFails
  | TransferFails.               (* [WriteFile] or [ReadFile] fails *)

(** An instance with the objects its handles denote, the files, and the log
    of calls.  [has_gates] tells whether the constructor has assigned
    [self.mutex], [self.read_semaphore] and [self.write_lock]; when it has
    not, the instance has no such attributes and the three fields that
    follow stand for nothing. *)
Record state : Type := State {
  data : store;
  filename : string;
  file_mutex : mutex_state;
  read_limit : nat;
  has_gates : bool;
  mutex : mutex_state;
  read_semaphore : semaphore_state;
  write_lock : mutex_state;
  files : gmap string (list byte);
  calls : list api_call
}.

Definition set_data (d : store) (s : state) : state :=
  State d (filename s) (file_mutex s) (read_limit s) (has_gates s)
        (mutex s) (read_semaphore s) (write_lock s) (files s) (calls s).

Definition set_files (f : gmap string (list byte)) (s : state) : state :=
  State (data s) (filename s) (file_mutex s) (read_limit s) (has_gates s)
        (mutex s) (read_semaphore s) (write_lock s) f (calls s).

Definition set_semaphore (c : semaphore_state) (s : state) : state :=
  State (data s) (filename s) (file_mutex s) (read_limit s) (has_gates s)
        (mutex s) c (write_lock s) (files s) (calls s).

Definition log (c : api_call) (s : state) : state :=
  State (data s) (filename s) (file_mutex s) (read_limit s) (has_gates s)
        (mutex s) (read_semaphore s) (write_lock s) (files s) (calls s ++ [c]).

Definition get_mutex (m : mutex_handle) (s : state) : mutex_state :=
  match m with
  | FileMutex => file_mutex s
  | Mutex => mutex s
  | WriteLock => write_lock s
  end.

Definition set_mutex (m : mutex_handle) (v : mutex_state) (s : state) : state :=
  match m with
  | FileMutex =>
      State (data s) (filename s) v (read_limit s) (has_gates s)
            (mutex s) (read_semaphore s) (write_lock s) (files s) (calls s)
  | Mutex =>
      State (data s) (filename s) (file_mutex s) (read_limit s) (has_gates s) v
            (read_semaphore s) (write_lock s) (files s) (calls s)
  | WriteLock =>
      State (data s) (filename s) (file_mutex s) (read_limit s) (has_gates s)
            (mutex s) (read_semaphore s) v (files s) (calls s)
  end.

(** ** Outcomes and sequencing *)

Inductive outcome (A : Type) : Type :=
  | Return (a : A) (s : state)
  | Raise (e : exn) (s : state)
  | Blocked (s : state).         (* an INFINITE wait that is never satisfied *)
Arguments Return {A} a s.
Arguments Raise {A} e s.
Arguments Blocked {A} s.

Definition M (A : Type) : Type := state -> outcome A.

Definition ret {A} (a : A) : M A := fun s => Return a s.

Definition bind {A B} (m : M A) (k : A -> M B) : M B :=
  fun s =>
    match m s with
    | Return a s' => k a s'
    | Raise e s' => Raise e s'
    | Blocked s' => Blocked s'
    end.

Notation "'let*' x ':=' m 'in' k" := (bind m (fun x => k))
  (at level 10, x name, m at level 100, k at level 200, only parsing).
Notation "m '>>' k" := (bind m (fun _ => k))
  (at level 90, right associativity, only parsing).

(** What a [finally] clause does to the outcome of its [try] body: it runs
    in every case but a wait that never ends; an exception of its own
    replaces the pending one. *)
Definition finally {A} (r : outcome A) (fin : M unit) : outcome A :=
  match r with
  | Return a s =>
      match fin s with
      | Return _ s' => Return a s'
      | Raise e s' => Raise e s'
      | Blocked s' => Blocked s'
      end
  | Raise e s =>
      match fin s with
      | Return _ s' => Raise e s'
      | Raise e' s' => Raise e' s'
      | Blocked s' => Blocked s'
      end
  | Blocked s => Blocked s
  end.

Definition try_finally {A} (body : M A) (fin : M unit) : M A :=
  fun s => finally (body s) fin.

(** [for _ in range(n): body]. *)
Fixpoint for_range (n : nat) (body : M unit) : M unit :=
  match n with
  | O => ret tt
  | S n' => body >> for_range n' body
  end.

(** ** The pywin32 calls *)

(** [win32event.WaitForSingleObject(h, INFINITE)]. *)
Definition WaitForSingleObject (h : handle) : M unit :=
  fun s =>
    let s := log (CallWait h) s in
    match h with
    | HMutex m =>
        match get_mutex m s with
        | Unowned => Return tt (set_mutex m (Owned 0) s)
        | Owned n => Return tt (set_mutex m (Owned (S n)) s)
        | OwnedElsewhere => Blocked s
        end
    | ReadSemaphore =>
        match sem_count (read_semaphore s) with
        | S c =>
            Return tt (set_semaphore
                         (Semaphore c (sem_max (read_semaphore s))) s)
        | O => Blocked s
        end
    end.

(** [win32event.ReleaseMutex(h)]: only the owner may release. *)
Definition ReleaseMutex (m : mutex_handle) : M unit :=
  fun s =>
    let s := log (CallReleaseMutex m) s in
    match get_mutex m s with
    | Owned O => Return tt (set_mutex m Unowned s)
    | Owned (S n) => Return tt (set_mutex m (Owned n) s)
    | Unowned | OwnedElsewhere => Raise (ApiError "ReleaseMutex") s
    end.

(** [win32event.ReleaseSemaphore(self.read_semaphore, 1)]: fails when the
    count would pass the maximum. *)
Definition ReleaseSemaphore : M unit :=
  fun s =>
    let s := log (CallReleaseSemaphore 1) s in
    let c := sem_count (read_semaphore s) in
    let m := sem_max (read_semaphore s) in
    if decide (c < m)%nat
    then Return tt (set_semaphore (Semaphore (S c) m) s)
    else Raise (ApiError "ReleaseSemaphore") s.

(** [win32file.CreateFile(name, access, 0, None, disposition, 0, None)].
    The code opens with [GENERIC_WRITE] and [CREATE_ALWAYS] (the file is
    created or truncated) or with [GENERIC_READ] and [OPEN_EXISTING].  The
    handle is modelled by the name of the file it is open on. *)
Definition CreateFile (name : string) (a : access) (io : io_fault) : M string :=
  fun s =>
    let s := log (CallCreateFile name a) s in
    match io with
    | CreateFileFails => Raise (ApiError "CreateFile") s
    | _ =>
        match a with
        | GENERIC_WRITE => Return name (set_files (<[name := []]> (files s)) s)
        | GENERIC_READ =>
            match files s !! name with
            | Some _ => Return name s
            | None => Raise (ApiError "CreateFile") s
            end
        end
    end.

(** [win32file.WriteFile(handle, bytes)]: appends at the file pointer of a
    handle that has just been opened for writing. *)
Definition WriteFile (h : string) (bytes : list byte) (io : io_fault) : M unit :=
  fun s =>
    let s := log (CallWriteFile h bytes) s in
    match io with
    | TransferFails => Raise (ApiError "WriteFile") s
    | _ =>
        Return tt (set_files
                     (<[h := default [] (files s !! h) ++ bytes]> (files s)) s)
    end.

(** [os.path.getsize(name)] of a file that exists. *)
Definition getsize (name : string) (s : state) : nat :=
  length (default [] (files s !! name)).

(** [win32file.ReadFile(handle, size)]: the second component of the result,
    at most [size] bytes from the start of a handle that has just been
    opened for reading. *)
Definition ReadFile (h : string) (size : nat) (io : io_fault) : M (list byte) :=
  fun s =>
    let s := log (CallReadFile h size) s in
    match io with
    | TransferFails => Raise (ApiError "ReadFile") s
    | _ => Return (take size (default [] (files s !! h))) s
    end.

(** [win32file.CloseHandle(handle)]; [None] is no handle. *)
Definition CloseHandle (h : option string) : M unit :=
  fun s =>
    let s := log (CallCloseHandle h) s in
    match h with
    | Some _ => Return tt s
    | None => Raise (ApiError "CloseHandle") s
    end.

(** In-memory steps of the methods, lifted to the state. *)
Definition set_value (key : pykey) (value : pyobj) : M bool :=
  fun s =>
    let (result, d) := DataBase.set_value key value (data s) in
    Return result (set_data d s).

Definition get_value (key : pykey) : M pyobj :=
  fun s => Return (DataBase.get_value key (data s)) s.

Definition delete (key : pykey) : M pyobj :=
  fun s =>
    let (result, d) := DataBase.delete key (data s) in
    Return result (set_data d s).

(** ** class SerializedDataBase(DataBase) *)

Module SerializedDataBase.
Section WithPickle.

(** [pickle.dumps] and [pickle.loads] on mappings; [loads] is [None] where
    Python raises. *)
Variable dumps : store -> list byte.
Variable loads : list byte -> option store.

Definition pickle_loads (bytes : list byte) : M store :=
  fun s =>
    match loads bytes with
    | Some d => Return d s
    | None => Raise UnpicklingError s
    end.

(** The [try] block of [save], with the value that the local variable
    [handle] has when the block is left. *)
Definition save_try (io : io_fault) (s : state)
  : option string * outcome unit :=
  match CreateFile (filename s) GENERIC_WRITE io s with
  | Return h s1 => (Some h, WriteFile h (dumps (data s1)) io s1)
  | Raise e s1 => (None, Raise e s1)
  | Blocked s1 => (None, Blocked s1)
  end.

Definition save (io : io_fault) : M unit :=
  WaitForSingleObject FileMutex >>
  (fun s =>
     let (handle, r) := save_try io s in
     finally r (CloseHandle handle >> ReleaseMutex FileMutex)).

(** The [try] block of [load]. *)
Definition load_try (io : io_fault) : M unit :=
  fun s =>
    match files s !! filename s with        (* os.path.exists *)
    | Some _ =>
        (let* handle := CreateFile (filename s) GENERIC_READ io in
         let* bytes :=
           (fun s' => ReadFile handle (getsize (filename s') s') io s') in
         let* d := pickle_loads bytes in
         (fun s' => Return tt (set_data d s')) >>
         CloseHandle (Some handle)) s
    | None => Return tt (set_data ∅ s)
    end.

Definition load (io : io_fault) : M unit :=
  WaitForSingleObject FileMutex >>
  try_finally (load_try io) (ReleaseMutex FileMutex).

End WithPickle.
End SerializedDataBase.

(** ** class SynchronizedDataBase(SerializedDataBase) *)

(** The [mode] argument of the constructor: a string, which the constructor
    compares with ['threads'] and with ['processes']. *)
Abbreviation mode := string.

(** A named kernel object that already exists when an instance is built. *)
Inductive kernel_object : Type :=
  | KMutex (m : mutex_state)
  | KSemaphore (c : semaphore_state).

Module SynchronizedDataBase.
Section WithPickle.

Variable dumps : store -> list byte.
Variable loads : list byte -> option store.

(** [win32event.CreateMutex(None, False, name)]: a new unowned mutex, or
    the existing one of that name. *)
Definition CreateMutex (name : option string)
    (ns : gmap string kernel_object) : M mutex_state :=
  fun s =>
    let s := log (CallCreateMutex name) s in
    match name ≫= (ns !!.) with
    | None => Return Unowned s
    | Some (KMutex m) => Return m s
    | Some (KSemaphore _) => Raise (ApiError "CreateMutex") s
    end.

(** [win32event.CreateSemaphore(None, initial, maximum, name)]. *)
Definition CreateSemaphore (initial maximum : nat) (name : option string)
    (ns : gmap string kernel_object) : M semaphore_state :=
  fun s =>
    let s := log (CallCreateSemaphore initial maximum name) s in
    match name ≫= (ns !!.) with
    | None => Return (Semaphore initial maximum) s
    | Some (KSemaphore c) => Return c s
    | Some (KMutex _) => Raise (ApiError "CreateSemaphore") s
    end.

Definition set_read_limit (n : nat) (s : state) : state :=
  State (data s) (filename s) (file_mutex s) n (has_gates s) (mutex s)
        (read_semaphore s) (write_lock s) (files s) (calls s).

Definition set_has_gates (b : bool) (s : state) : state :=
  State (data s) (filename s) (file_mutex s) (read_limit s) b (mutex s)
        (read_semaphore s) (write_lock s) (files s) (calls s).

(** The body of either branch of the [if]: the three gates, under the names
    the branch gives them.  Once it is through, [mutex], [read_semaphore]
    and [write_lock] are attributes of the instance. *)
Definition create_gates (name : string -> option string)
    (ns : gmap string kernel_object) : M unit :=
  let* m := CreateMutex (name "Global\DataMutex") ns in
  (fun s => Return tt (set_mutex Mutex m s)) >>
  let* sem :=
    (fun s => CreateSemaphore (read_limit s) (read_limit s)
                (name "Global\ReadSemaphore") ns s) in
  (fun s => Return tt (set_semaphore sem s)) >>
  let* w := CreateMutex (name "Global\WriteLock") ns in
  (fun s => Return tt (set_has_gates true (set_mutex WriteLock w s))).

(** [__init__(filename, mode)], through [SerializedDataBase.__init__] and
    [DataBase.__init__], in a file system [fs] and a kernel namespace
    [ns].  The [if] has no [else]: with a mode that is neither string the
    instance gets no gate. *)
Definition init (fname : string) (md : mode) (io : io_fault)
    (fs : gmap string (list byte)) (ns : gmap string kernel_object)
  : outcome unit :=
  (let* fm := CreateMutex None ns in
   (fun s => Return tt (set_mutex FileMutex fm s)) >>
   SerializedDataBase.load loads io >>
   (fun s => Return tt (set_read_limit 10 s)) >>
   (if decide (md = "threads") then create_gates (fun _ => None) ns
    else if decide (md = "processes") then create_gates Some ns
    else ret tt))
    (State DataBase.init fname OwnedElsewhere 0 false OwnedElsewhere
           (Semaphore 0 0) OwnedElsewhere fs []).

(** [self.mutex], [self.read_semaphore], [self.write_lock]: reading one of
    them raises on an instance that has no gates. *)
Definition gate_attr (name : string) : M unit :=
  fun s => if has_gates s then Return tt s else Raise (AttributeError name) s.

Definition value_set (key : pykey) (value : pyobj) (io : io_fault) : M bool :=
  (* Acquire write lock *)
  gate_attr "write_lock" >> WaitForSingleObject WriteLock >>
  (* Acquire read lock *)
  gate_attr "mutex" >> WaitForSingleObject Mutex >>
  (fun s => for_range (read_limit s)
              (gate_attr "read_semaphore" >>
               WaitForSingleObject ReadSemaphore) s) >>
  (* Perform the write operation *)
  let* result := set_value key value in
  SerializedDataBase.save dumps io >>
  (* Release the read semaphore and mutex *)
  (fun s => for_range (read_limit s)
              (gate_attr "read_semaphore" >> ReleaseSemaphore) s) >>
  gate_attr "mutex" >> ReleaseMutex Mutex >>
  gate_attr "write_lock" >> ReleaseMutex WriteLock >>
  ret result.

Definition value_get (key : pykey) (io : io_fault) : M pyobj :=
  (* Acquire read semaphore *)
  gate_attr "read_semaphore" >> WaitForSingleObject ReadSemaphore >>
  (* Perform the read operation *)
  SerializedDataBase.load loads io >>
  let* d := get_value key in
  (* Release read semaphore *)
  gate_attr "read_semaphore" >> ReleaseSemaphore >>
  ret d.

End WithPickle.
End SynchronizedDataBase.

(** ** The module-level function [value_delete] *)

(** [value_delete(self, key)] is defined at the top level of the module, not
    in the body of a class.  It waits on the gates like [value_set]; its
    next statement calls [super()] without arguments, which outside a class
    body raises [RuntimeError]. *)
Definition value_delete (key : pykey) : M pyobj :=
  SynchronizedDataBase.gate_attr "write_lock" >>
  WaitForSingleObject WriteLock >>
  SynchronizedDataBase.gate_attr "mutex" >>
  WaitForSingleObject Mutex >>
  (fun s => for_range (read_limit s)
              (SynchronizedDataBase.gate_attr "read_semaphore" >>
               WaitForSingleObject ReadSemaphore) s) >>
  (fun s => Raise (RuntimeError "super(): __class__ cell not found") s).

(** ** Attribute lookup *)

Inductive class : Type :=
  | ClsDataBase
  | ClsSerializedDataBase
  | ClsSynchronizedDataBase.

(** The names each class body defines. *)
Definition class_dict (c : class) : list string :=
  match c with
  | ClsDataBase => ["__init__"; "set_value"; "get_value"; "delete"]
  | ClsSerializedDataBase => ["__init__"; "save"; "load"]
  | ClsSynchronizedDataBase => ["__init__"; "value_set"; "value_get"]
  end.

(** The method resolution order. *)
Definition mro (c : class) : list class :=
  match c with
  | ClsDataBase => [ClsDataBase]
  | ClsSerializedDataBase => [ClsSerializedDataBase; ClsDataBase]
  | ClsSynchronizedDataBase =>
      [ClsSynchronizedDataBase; ClsSerializedDataBase; ClsDataBase]
  end.

(** The class whose body provides attribute [name] of an instance of [c];
    [None] is [AttributeError]. *)
Definition resolve (c : class) (name : string) : option class :=
  list_find (fun k => name ∈ class_dict k) (mro c) ≫= (fun p => Some p.2).

(** ** A reference pickler *)

(** [pickle] is a library; the methods above take [dumps] and [loads] as
    parameters.  [Pickle.dumps] and [Pickle.loads] are one pair of functions
    that round-trips every mapping, so that statements assuming a round trip
    can be instantiated. *)

Module Pickle.

(** Values as trees over integers and strings. *)
Fixpoint to_tree (v : pyobj) : gen_tree (Z + string) :=
  match v with
  | PyNone => GenNode 0 []
  | PyBool false => GenNode 1 []
  | PyBool true => GenNode 2 []
  | PyInt z => GenLeaf (inl z)
  | PyStr s => GenLeaf (inr s)
  | PyList l => GenNode 3 (map to_tree l)
  end.

Fixpoint of_tree (t : gen_tree (Z + string)) : pyobj :=
  match t with
  | GenLeaf (inl z) => PyInt z
  | GenLeaf (inr s) => PyStr s
  | GenNode 0 _ => PyNone
  | GenNode 1 _ => PyBool false
  | GenNode 2 _ => PyBool true
  | GenNode _ ts => PyList (map of_tree ts)
  end.

(** A positive number as bytes, one binary digit per byte, and back;
    bytes other than the two digits are rejected. *)
Fixpoint pos_to_bytes (p : positive) : list byte :=
  match p with
  | xH => []
  | xO p' => "0"%byte :: pos_to_bytes p'
  | xI p' => "1"%byte :: pos_to_bytes p'
  end.

Fixpoint bytes_to_pos (l : list byte) : option positive :=
  match l with
  | [] => Some xH
  | b :: l' =>
      if Byte.eqb b "0" then xO <$> bytes_to_pos l'
      else if Byte.eqb b "1" then xI <$> bytes_to_pos l'
      else None
  end.

(** The mapping of trees is numbered by [encode]; the number is written
    out in bytes. *)
Definition dumps (d : store) : list byte :=
  pos_to_bytes (encode (to_tree <$> d)).

Definition loads (bytes : list byte) : option store :=
  p ← bytes_to_pos bytes;
  t ← decode p;
  Some (of_tree <$> (t : gmap pykey (gen_tree (Z + string)))).

End Pickle.

(** ** Vocabulary of the statements *)

(** The state after the calls [cs] have been logged. *)
Definition logs (cs : list api_call) (s : state) : state :=
  State (data s) (filename s) (file_mutex s) (read_limit s) (has_gates s)
        (mutex s) (read_semaphore s) (write_lock s) (files s) (calls s ++ cs).

(** A mutex after one more successful wait of the caller. *)
Definition acquired (m : mutex_state) : mutex_state :=
  match m with
  | Unowned => Owned 0
  | Owned n => Owned (S n)
  | OwnedElsewhere => OwnedElsewhere
  end.

(** A semaphore with [n] slots fewer. *)
Definition drained (n : nat) (c : semaphore_state) : semaphore_state :=
  Semaphore (sem_count c - n) (sem_max c).

(** The instance has its gates, and the caller can take the three mutexes
    and [n] slots, and can give the slots back. *)
Definition gates_available (n : nat) (s : state) : Prop :=
  has_gates s = true ∧
  write_lock s ≠ OwnedElsewhere ∧ mutex s ≠ OwnedElsewhere ∧
  file_mutex s ≠ OwnedElsewhere ∧
  (n ≤ sem_count (read_semaphore s))%nat ∧
  (sem_count (read_semaphore s) ≤ sem_max (read_semaphore s))%nat.

(** The gates of [s'] are as they were in [s]: what was acquired in between
    has been released. *)
Definition gates_released (s s' : state) : Prop :=
  write_lock s' = write_lock s ∧ mutex s' = mutex s ∧
  read_semaphore s' = read_semaphore s.

(** The calls of [save] and of [load] on a file that exists. *)
Definition save_calls (name : string) (bytes : list byte) : list api_call :=
  [CallWait FileMutex; CallCreateFile name GENERIC_WRITE;
   CallWriteFile name bytes; CallCloseHandle (Some name);
   CallReleaseMutex FileMutex].

Definition load_calls (name : string) (size : nat) : list api_call :=
  [CallWait FileMutex; CallCreateFile name GENERIC_READ;
   CallReadFile name size; CallCloseHandle (Some name);
   CallReleaseMutex FileMutex].

(** The ways [load] fails on a file that exists: a call on the file fails,
    or its bytes are not a pickle. *)
Definition load_fails (loads : list byte -> option store)
    (io : io_fault) (s : state) : Prop :=
  ∃ bytes, files s !! filename s = Some bytes ∧
           (io ≠ NoFault ∨ loads bytes = None).

(** The calls of a [value_set] that returns, with a read limit of [n]. *)
Definition writer_calls (n : nat) (name : string) (bytes : list byte)
  : list api_call :=
  [CallWait WriteLock; CallWait Mutex] ++
  replicate n (CallWait ReadSemaphore) ++
  save_calls name bytes ++
  replicate n (CallReleaseSemaphore 1) ++
  [CallReleaseMutex Mutex; CallReleaseMutex WriteLock].

(** The mapping that [load] installs when nothing fails: the empty one when
    the file does not exist, what the bytes of the file denote otherwise. *)
Definition snapshot (loads : list byte -> option store) (s : state)
  : option store :=
  match files s !! filename s with
  | Some bytes => loads bytes
  | None => Some ∅
  end.

(** The calls of a [value_get] that returns. *)
Definition reader_calls (s : state) : list api_call :=
  [CallWait ReadSemaphore] ++
  match files s !! filename s with
  | Some bytes => load_calls (filename s) (length bytes)
  | None => [CallWait FileMutex; CallReleaseMutex FileMutex]
  end ++
  [CallReleaseSemaphore 1].

(** The instance has its gates, and the caller can take one slot and the
    file mutex, and can give the slot back. *)
Definition slot_available (s : state) : Prop :=
  has_gates s = true ∧
  file_mutex s ≠ OwnedElsewhere ∧
  (0 < sem_count (read_semaphore s))%nat ∧
  (sem_count (read_semaphore s) ≤ sem_max (read_semaphore s))%nat.

(** The instance that [SynchronizedDataBase("test.pkl", "threads")] builds
    when the file does not exist. *)
Definition fresh : state :=
  State ∅ "test.pkl" Unowned 10 true Unowned (Semaphore 10 10) Unowned ∅
        [CallCreateMutex None; CallWait FileMutex; CallReleaseMutex FileMutex;
         CallCreateMutex None; CallCreateSemaphore 10 10 None;
         CallCreateMutex None].

(** [s] beside a snapshot file that holds the pickle of [d]. *)
Definition with_snapshot (d : store) (s : state) : state :=
  set_files (<[filename s := Pickle.dumps d]> (files s)) s.

(** ** Further vocabulary *)

(** The state in which an outcome leaves the store. *)
Definition outcome_state {A : Type} (r : outcome A) : state :=
  match r with
  | Return _ s => s
  | Raise _ s => s
  | Blocked s => s
  end.

(** What [CreateMutex] gives for a name: a new unowned mutex when no object
    bears the name, the mutex that bears it, nothing when the name is taken
    by a semaphore. *)
Definition mutex_at (o : option kernel_object) : option mutex_state :=
  match o with
  | None => Some Unowned
  | Some (KMutex m) => Some m
  | Some (KSemaphore _) => None
  end.

(** What [CreateSemaphore(None, 10, 10, name)] gives for a name. *)
Definition semaphore_at (o : option kernel_object) : option semaphore_state :=
  match o with
  | None => Some (Semaphore 10 10)
  | Some (KSemaphore c) => Some c
  | Some (KMutex _) => None
  end.

(** The mutex, the semaphore and the write lock that construction installs
    in mode ['threads'] or ['processes'], when its create calls succeed. *)
Definition gates_found (md : mode) (ns : gmap string kernel_object)
  : option (mutex_state * semaphore_state * mutex_state) :=
  if decide (md = "threads") then Some (Unowned, Semaphore 10 10, Unowned)
  else if decide (md = "processes") then
    m ← mutex_at (ns !! "Global\DataMutex");
    c ← semaphore_at (ns !! "Global\ReadSemaphore");
    w ← mutex_at (ns !! "Global\WriteLock");
    Some (m, c, w)
  else None.

(** The gates that construction creates or finds are free for a writer:
    neither mutex is owned elsewhere and at least ten slots are free. *)
Definition gates_free (md : mode) (ns : gmap string kernel_object) : Prop :=
  ∃ m c w, gates_found md ns = Some (m, c, w) ∧
           m ≠ OwnedElsewhere ∧ w ≠ OwnedElsewhere ∧
           (10 ≤ sem_count c)%nat ∧ (sem_count c ≤ sem_max c)%nat.

(** The semaphore that construction creates or finds has a slot for a
    reader. *)
Definition slot_free (md : mode) (ns : gmap string kernel_object) : Prop :=
  ∃ m c w, gates_found md ns = Some (m, c, w) ∧
           (0 < sem_count c)%nat ∧ (sem_count c ≤ sem_max c)%nat.

(** No create call of the constructor fails: in mode ['processes'] none of
    the three global names is taken by an object of the other kind. *)
Definition creation_succeeds (md : mode) (ns : gmap string kernel_object)
  : Prop :=
  md = "processes" → is_Some (gates_found md ns).

(** The step [m] leaves [has_gates] as it is, however it ends. *)
Definition keeps_gates {A : Type} (m : M A) : Prop :=
  ∀ s, has_gates (outcome_state (m s)) = has_gates s.

(** The three functions with the attribute reads left out: what they are on
    an instance that has its gates. *)
Module Gated.
Section WithPickle.

Variable dumps : store -> list byte.
Variable loads : list byte -> option store.

Definition value_set (key : pykey) (value : pyobj) (io : io_fault) : M bool :=
  WaitForSingleObject WriteLock >>
  WaitForSingleObject Mutex >>
  (fun s => for_range (read_limit s) (WaitForSingleObject ReadSemaphore) s) >>
  let* result := set_value key value in
  SerializedDataBase.save dumps io >>
  (fun s => for_range (read_limit s) ReleaseSemaphore s) >>
  ReleaseMutex Mutex >>
  ReleaseMutex WriteLock >>
  ret result.

Definition value_get (key : pykey) (io : io_fault) : M pyobj :=
  WaitForSingleObject ReadSemaphore >>
  SerializedDataBase.load loads io >>
  let* d := get_value key in
  ReleaseSemaphore >>
  ret d.

Definition value_delete (key : pykey) : M pyobj :=
  WaitForSingleObject WriteLock >>
  WaitForSingleObject Mutex >>
  (fun s => for_range (read_limit s) (WaitForSingleObject ReadSemaphore) s) >>
  (fun s => Raise (RuntimeError "super(): __class__ cell not found") s).

End WithPickle.
End Gated.

(** [n] readers take a slot each, as [value_get] does in its first call. *)
Definition take_slots (n : nat) : M unit :=
  for_range n (WaitForSingleObject ReadSemaphore).

(** ** The drivers of [ThreadTest.py] and [ProcessTest.py] *)

(** A piece of an f-string: literal text, or a value that is formatted into
    the line. *)
Inductive fpart : Type :=
  | Lit (text : string)
  | Val (v : pyobj).

(** What a driver does besides calling the store. *)
Inductive driver_event : Type :=
  | Print (line : list fpart)
  | Sleep (seconds : Z).

(** A driver threads the state of the store and appends to the list of its
    own events, which is kept when a call raises or waits. *)
Definition D (A : Type) : Type :=
  list driver_event -> state -> outcome A * list driver_event.

Definition dret {A : Type} (a : A) : D A := fun out s => (Return a s, out).

Definition dbind {A B : Type} (m : D A) (k : A -> D B) : D B :=
  fun out s =>
    match m out s with
    | (Return a s', out') => k a out' s'
    | (Raise e s', out') => (Raise e s', out')
    | (Blocked s', out') => (Blocked s', out')
    end.

Notation "'do*' x ':=' m 'in' k" := (dbind m (fun x => k))
  (at level 10, x name, m at level 100, k at level 200, only parsing).
Notation "m '>>>' k" := (dbind m (fun _ => k))
  (at level 90, right associativity, only parsing).

(** A method call on the store. *)
Definition call {A : Type} (m : M A) : D A := fun out s => (m s, out).

Definition print (line : list fpart) : D unit :=
  fun out s => (Return tt s, out ++ [Print line]).

(** [time.sleep(seconds)]. *)
Definition sleep (seconds : Z) : D unit :=
  fun out s => (Return tt s, out ++ [Sleep seconds]).

(** [range(n)]. *)
Definition range (n : nat) : list Z := Z.of_nat <$> seq 0 n.

(** [for x in l: body]. *)
Fixpoint for_in {A : Type} (l : list A) (body : A -> D unit) : D unit :=
  match l with
  | [] => dret tt
  | x :: l' => body x >>> for_in l' body
  end.

(** The two lines a writer prints for a key, and the line of a reader. *)
Definition set_line (writer_id : pyobj) (i : Z) : list fpart :=
  [Lit "Writer "; Val writer_id; Lit " set value "; Val writer_id;
   Lit " for key "; Val (PyInt i)].

Definition skipped_line (writer_id : pyobj) (i : Z) : list fpart :=
  [Lit "Writer "; Val writer_id; Lit " skipped key "; Val (PyInt i);
   Lit " because it already exists"].

Definition got_line (reader_id value : pyobj) (i : Z) : list fpart :=
  [Lit "Reader "; Val reader_id; Lit " got "; Val value;
   Lit " for key "; Val (PyInt i)].

Module ThreadTest.
Section WithPickle.

Variable dumps : store -> list byte.
Variable loads : list byte -> option store.

(** [reader(db, reader_id)]; [io i] is how the file system behaves during
    the call for key [i]. *)
Definition reader (io : Z -> io_fault) (reader_id : pyobj) : D unit :=
  print [Lit "Reader "; Val reader_id; Lit " started"] >>>
  for_in (range 5) (fun i =>
    do* value := call (SynchronizedDataBase.value_get loads (KInt i) (io i)) in
    print (got_line reader_id value i) >>>
    sleep 1) >>>
  print [Lit "Reader "; Val reader_id; Lit " finished"].

(** [writer(db, writer_id)]. *)
Definition writer (io : Z -> io_fault) (writer_id : pyobj) : D unit :=
  print [Lit "Writer "; Val writer_id; Lit " started"] >>>
  for_in (range 10) (fun i =>
    do* success :=
      call (SynchronizedDataBase.value_set dumps (KInt i) writer_id (io i)) in
    (if success : bool
     then print (set_line writer_id i)
     else print (skipped_line writer_id i)) >>>
    sleep 1) >>>
  print [Lit "Writer "; Val writer_id; Lit " finished"].

End WithPickle.
End ThreadTest.

Module ProcessTest.
Section WithPickle.

Variable dumps : store -> list byte.
Variable loads : list byte -> option store.

(** [db = SynchronizedDataBase(file_name, 'processes')], the first
    statement of both functions, and then the rest of the function. *)
Definition with_db (file_name : string) (io_init : io_fault)
    (fs : gmap string (list byte)) (ns : gmap string kernel_object)
    (rest : D unit) : outcome unit * list driver_event :=
  match SynchronizedDataBase.init loads file_name "processes" io_init fs ns
  with
  | Return _ s => rest [] s
  | Raise e s => (Raise e s, [])
  | Blocked s => (Blocked s, [])
  end.

(** [reader(file_name, reader_id)]. *)
Definition reader (file_name : string) (reader_id : pyobj)
    (io_init : io_fault) (io : Z -> io_fault)
    (fs : gmap string (list byte)) (ns : gmap string kernel_object)
  : outcome unit * list driver_event :=
  with_db file_name io_init fs ns
    (print [Lit "Reader "; Val reader_id; Lit " started"] >>>
     for_in (range 5) (fun i =>
       do* value :=
         call (SynchronizedDataBase.value_get loads (KInt i) (io i)) in
       print (got_line reader_id value i) >>>
       sleep 1) >>>
     print [Lit "Reader "; Val reader_id; Lit " finished"]).

(** [writer(file_name, writer_id)]. *)
Definition writer (file_name : string) (writer_id : pyobj)
    (io_init : io_fault) (io : Z -> io_fault)
    (fs : gmap string (list byte)) (ns : gmap string kernel_object)
  : outcome unit * list driver_event :=
  with_db file_name io_init fs ns
    (print [Lit "Writer "; Val writer_id; Lit " started"] >>>
     for_in (range 10) (fun i =>
       do* success :=
         call (SynchronizedDataBase.value_set dumps (KInt i) writer_id
                 (io i)) in
       (if success : bool
        then print (set_line writer_id i)
        else print (skipped_line writer_id i)) >>>
       sleep 1) >>>
     print [Lit "Writer "; Val writer_id; Lit " finished"]).

End WithPickle.
End ProcessTest.

(** The mapping a writer leaves: each key of [keys], in turn, is bound to
    [writer_id] unless it is bound already. *)
Definition written (writer_id : pyobj) (keys : list Z) (d : store) : store :=
  foldl (fun d i => (DataBase.set_value (KInt i) writer_id d).2) d keys.

(** The lines and pauses of a writer's loop over [keys], from the mapping
    [d]. *)
Definition writer_lines (writer_id : pyobj) (keys : list Z) (d : store)
  : list driver_event :=
  keys ≫= (fun i =>
    [Print (match d !! KInt i with
            | None => set_line writer_id i
            | Some _ => skipped_line writer_id i
            end);
     Sleep 1]).

(** The lines and pauses of a reader's loop over [keys], on the mapping
    [d]. *)
Definition reader_lines (reader_id : pyobj) (keys : list Z) (d : store)
  : list driver_event :=
  keys ≫= (fun i =>
    [Print (got_line reader_id (DataBase.get_value (KInt i) d) i); Sleep 1]).

(** [s'] is the same instance as [s] with every gate as in [s]. *)
Definition same_gates (s s' : state) : Prop :=
  has_gates s' = has_gates s ∧
  filename s' = filename s ∧ read_limit s' = read_limit s ∧
  file_mutex s' = file_mutex s ∧ mutex s' = mutex s ∧
  read_semaphore s' = read_semaphore s ∧ write_lock s' = write_lock s.

(** ** The [__main__] block of [Database.py] *)

(** Python's [==] on values: integers and booleans compare as numbers,
    lists element by element. *)
Fixpoint py_eq (a b : pyobj) : bool :=
  match a, b with
  | PyNone, PyNone => true
  | PyBool x, PyBool y => Bool.eqb x y
  | PyBool x, PyInt z => (Z.b2z x =? z)%Z
  | PyInt z, PyBool x => (z =? Z.b2z x)%Z
  | PyInt x, PyInt y => (x =? y)%Z
  | PyStr x, PyStr y => String.eqb x y
  | PyList l1, PyList l2 =>
      (fix go (l1 l2 : list pyobj) : bool :=
         match l1, l2 with
         | [], [] => true
         | x :: l1', y :: l2' => py_eq x y && go l1' l2'
         | _, _ => false
         end) l1 l2
  | _, _ => false
  end.

(** How the block ends: it runs through, leaving [db2] and [db3]; an
    [assert] on the given line fails; a constructor raises; a constructor
    waits. *)
Inductive main_result : Type :=
  | MainDone (db2 db3 : state)
  | MainAssertionError (line : nat)
  | MainRaised (e : exn)
  | MainBlocked.

Definition key_ : pykey := KInt 0.
Definition value_ : pyobj := PyInt 1.
Definition file_name : string := "test.pkl".

(** [assert cond] on line [line], then [k]. *)
Definition assert_then (line : nat) (cond : bool) (k : main_result)
  : main_result :=
  if cond then k else MainAssertionError line.

(** The four statements that the block runs on each of its three stores,
    the first of them on line [line]; they use [set_value], [get_value] and
    [delete], which act on [self.data] alone. *)
Definition exercise (line : nat) (d : store) (k : store -> main_result)
  : main_result :=
  assert_then line (DataBase.set_value key_ value_ d).1
    (assert_then (line + 1)
       (py_eq (DataBase.get_value key_ (DataBase.set_value key_ value_ d).2)
              value_)
       (assert_then (line + 3)
          (negb (py_eq
                   (DataBase.get_value key_
                      (DataBase.delete key_
                         (DataBase.set_value key_ value_ d).2).2)
                   value_))
          (k (DataBase.delete key_ (DataBase.set_value key_ value_ d).2).2))).

(** The block, on a file system [fs] and a kernel namespace [ns]; [io2] and
    [io3] are how the file system behaves while [db2] and [db3] are
    built. *)
Definition main (loads : list byte -> option store) (io2 io3 : io_fault)
    (fs : gmap string (list byte)) (ns : gmap string kernel_object)
  : main_result :=
  exercise 173 DataBase.init (fun _ =>
    match SynchronizedDataBase.init loads file_name "threads" io2 fs ns with
    | Return _ s2 =>
        exercise 179 (data s2) (fun d2 =>
          match SynchronizedDataBase.init loads file_name "processes" io3
                  (files s2) ns with
          | Return _ s3 =>
              exercise 185 (data s3) (fun d3 =>
                MainDone (set_data d2 s2) (set_data d3 s3))
          | Raise e _ => MainRaised e
          | Blocked _ => MainBlocked
          end)
    | Raise e _ => MainRaised e
    | Blocked _ => MainBlocked
    end).

(** ** The reference pickler round-trips *)

Lemma of_to_tree (v : pyobj) : Pickle.of_tree (Pickle.to_tree v) = v.
Proof.
  revert v. fix IH 1. intros [ | [] | z | s | l ]; simpl; try reflexivity.
  f_equal. induction l as [ | x l IHl ]; simpl; [ reflexivity | ].
  f_equal; [ apply IH | apply IHl ].
Qed.

Lemma bytes_to_pos_to_bytes (p : positive) :
  Pickle.bytes_to_pos (Pickle.pos_to_bytes p) = Some p.
Proof. induction p as [ p IH | p IH | ]; simpl; by rewrite ?IH. Qed.

Lemma loads_dumps (d : store) : Pickle.loads (Pickle.dumps d) = Some d.
Proof.
  unfold Pickle.loads, Pickle.dumps.
  rewrite bytes_to_pos_to_bytes. simpl. rewrite decode_encode. simpl.
  f_equal. rewrite <- map_fmap_compose.
  rewrite <- (map_fmap_id d) at 2. apply map_fmap_ext.
  intros k v _. apply of_to_tree.
Qed.

(** ** Lemmas on the calls and on the two loops *)

Lemma logs_nil (s : state) : logs [] s = s.
Proof. destruct s. unfold logs. simpl. by rewrite app_nil_r. Qed.

Lemma wait_mutex_returns (m : mutex_handle) (s : state) :
  get_mutex m s ≠ OwnedElsewhere →
  WaitForSingleObject m s =
  Return tt (set_mutex m (acquired (get_mutex m s)) (log (CallWait m) s)).
Proof.
  intros H. unfold WaitForSingleObject.
  destruct s, m; simpl in *;
    match goal with H : ?x ≠ _ |- _ => destruct x end; done.
Qed.

Lemma release_acquired (m : mutex_handle) (v : mutex_state) (s : state) :
  v ≠ OwnedElsewhere →
  get_mutex m s = acquired v →
  ReleaseMutex m s = Return tt (set_mutex m v (log (CallReleaseMutex m) s)).
Proof.
  intros Hv H. unfold ReleaseMutex.
  destruct s, m; simpl in *; rewrite H; by destruct v.
Qed.

Lemma drain_returns (n : nat) (s : state) :
  (n ≤ sem_count (read_semaphore s))%nat →
  for_range n (WaitForSingleObject ReadSemaphore) s =
  Return tt (set_semaphore (drained n (read_semaphore s))
               (logs (replicate n (CallWait ReadSemaphore)) s)).
Proof.
  revert s. induction n as [ | n IH ]; intros s Hn.
  - rewrite logs_nil. destruct s as [? ? ? ? ? ? [c mx] ? ? ?]. simpl.
    unfold ret, set_semaphore, drained. simpl. by rewrite Nat.sub_0_r.
  - destruct s as [d f fm rl hg mu [c mx] wl fs cs]. simpl in Hn.
    destruct c as [ | c ]; [ lia | ].
    simpl. unfold bind. simpl. rewrite IH by (simpl; lia).
    unfold set_semaphore, drained, logs. simpl.
    by rewrite <- app_assoc.
Qed.

Lemma refill_returns (n : nat) (s : state) :
  (sem_count (read_semaphore s) + n ≤ sem_max (read_semaphore s))%nat →
  for_range n ReleaseSemaphore s =
  Return tt (set_semaphore
               (Semaphore (sem_count (read_semaphore s) + n)
                          (sem_max (read_semaphore s)))
               (logs (replicate n (CallReleaseSemaphore 1)) s)).
Proof.
  revert s. induction n as [ | n IH ]; intros s Hn.
  - rewrite logs_nil. destruct s as [? ? ? ? ? ? [c mx] ? ? ?]. simpl.
    unfold ret, set_semaphore. simpl. by rewrite Nat.add_0_r.
  - destruct s as [d f fm rl hg mu [c mx] wl fs cs]. simpl in Hn.
    simpl. unfold bind, ReleaseSemaphore. simpl.
    destruct (decide (c < mx)%nat) as [ _ | ? ]; [ | lia ].
    rewrite IH by (simpl; lia).
    unfold set_semaphore, logs. simpl.
    rewrite <- app_assoc. simpl. do 3 f_equal. lia.
Qed.

Lemma gate_attr_returns (name : string) (s : state) :
  has_gates s = true → SynchronizedDataBase.gate_attr name s = Return tt s.
Proof. intros H. unfold SynchronizedDataBase.gate_attr. by rewrite H. Qed.

Lemma gate_attr_raises (name : string) (s : state) :
  has_gates s = false →
  SynchronizedDataBase.gate_attr name s = Raise (AttributeError name) s.
Proof. intros H. unfold SynchronizedDataBase.gate_attr. by rewrite H. Qed.

Lemma wait_keeps_gates (h : handle) : keeps_gates (WaitForSingleObject h).
Proof.
  intros [d f fm rl hg mu [c mx] wl fs cs].
  destruct h as [ [] | ]; unfold WaitForSingleObject; simpl;
    repeat case_match; done.
Qed.

Lemma release_semaphore_keeps_gates : keeps_gates ReleaseSemaphore.
Proof.
  intros [d f fm rl hg mu [c mx] wl fs cs].
  unfold ReleaseSemaphore; simpl. by case_decide.
Qed.

Lemma release_mutex_keeps_gates (m : mutex_handle) :
  keeps_gates (ReleaseMutex m).
Proof.
  intros [d f fm rl hg mu [c mx] wl fs cs].
  destruct m; unfold ReleaseMutex; simpl; repeat case_match; done.
Qed.

Lemma bind_keeps_gates {A B : Type} (m : M A) (k : A -> M B) :
  keeps_gates m → (∀ a, keeps_gates (k a)) → keeps_gates (bind m k).
Proof.
  intros Hm Hk s. unfold bind. pose proof (Hm s) as H.
  destruct (m s) as [ a s1 | e s1 | s1 ]; simpl in *; try done.
  by rewrite Hk.
Qed.

Lemma for_range_keeps_gates (n : nat) (body : M unit) :
  keeps_gates body → keeps_gates (for_range n body).
Proof.
  intros Hb. induction n as [ | n IH ]; [ done | ].
  simpl. apply bind_keeps_gates; done.
Qed.

Lemma for_range_gated (n : nat) (name : string) (body : M unit) (s : state) :
  keeps_gates body →
  has_gates s = true →
  for_range n (SynchronizedDataBase.gate_attr name >> body) s =
  for_range n body s.
Proof.
  intros Hbody. revert s. induction n as [ | n IH ]; intros s Hg; [ done | ].
  simpl. unfold bind at 1 2 4. rewrite gate_attr_returns by done.
  pose proof (Hbody s) as Hs.
  destruct (body s) as [ [] s1 | e s1 | s1 ]; simpl in *; try done.
  apply IH. congruence.
Qed.

(** Skipping an attribute read, and replacing the rest of a sequence, on an
    instance that has its gates. *)
Lemma bind_attr_skip {B : Type} (name : string) (k : M B) (s : state) :
  has_gates s = true →
  (SynchronizedDataBase.gate_attr name >> k) s = k s.
Proof. intros H. unfold bind. by rewrite gate_attr_returns. Qed.

Lemma bind_ext_gated {A B : Type} (m1 m2 : M A) (k1 k2 : A -> M B)
    (s : state) :
  has_gates s = true → m1 s = m2 s → keeps_gates m2 →
  (∀ a s', has_gates s' = true → k1 a s' = k2 a s') →
  bind m1 k1 s = bind m2 k2 s.
Proof.
  intros Hg Hm Hk Hext. unfold bind. rewrite Hm. pose proof (Hk s) as H.
  destruct (m2 s) as [ a s1 | e s1 | s1 ]; simpl in *; try done.
  apply Hext. congruence.
Qed.

(** ** [save] and [load] *)

Section Persistence.

Variable dumps : store -> list byte.
Variable loads : list byte -> option store.

Lemma save_returns (s : state) :
  file_mutex s ≠ OwnedElsewhere →
  SerializedDataBase.save dumps NoFault s =
  Return tt (set_files (<[filename s := dumps (data s)]> (files s))
               (logs (save_calls (filename s) (dumps (data s))) s)).
Proof.
  intros H. destruct s as [d f fm rl hg mu sem wl fs cs]. simpl in H.
  unfold SerializedDataBase.save, bind, set_files, logs, save_calls.
  destruct fm; try done; simpl;
    rewrite lookup_insert_eq, insert_insert_eq, <- !app_assoc; done.
Qed.

Lemma save_raises (io : io_fault) (s : state) :
  io ≠ NoFault → file_mutex s ≠ OwnedElsewhere →
  ∃ e s', SerializedDataBase.save dumps io s = Raise e s' ∧
          data s' = data s ∧ read_limit s' = read_limit s ∧
          gates_released s s'.
Proof.
  intros Hio H. destruct s as [d f fm rl hg mu sem wl fs cs]. simpl in H.
  unfold SerializedDataBase.save, bind, gates_released.
  destruct io, fm; try done; simpl; eauto 10.
Qed.

Lemma load_missing (io : io_fault) (s : state) :
  files s !! filename s = None → file_mutex s ≠ OwnedElsewhere →
  SerializedDataBase.load loads io s =
  Return tt (set_data ∅
               (logs [CallWait FileMutex; CallReleaseMutex FileMutex] s)).
Proof.
  intros Hf H. destruct s as [d f fm rl hg mu sem wl fs cs]. simpl in *.
  unfold SerializedDataBase.load, try_finally, bind, set_data, logs.
  unfold SerializedDataBase.load_try.
  destruct fm; try done; simpl; rewrite Hf; simpl;
    rewrite <- !app_assoc; done.
Qed.

Lemma load_existing (s : state) (bytes : list byte) (d : store) :
  files s !! filename s = Some bytes → loads bytes = Some d →
  file_mutex s ≠ OwnedElsewhere →
  SerializedDataBase.load loads NoFault s =
  Return tt (set_data d
               (logs (load_calls (filename s) (length bytes)) s)).
Proof.
  intros Hf Hd H. destruct s as [d0 f fm rl hg mu sem wl fs cs]. simpl in *.
  unfold SerializedDataBase.load, try_finally, bind, set_data, logs.
  unfold SerializedDataBase.load_try, load_calls.
  destruct fm; try done; simpl; rewrite Hf;
    unfold bind, getsize, SerializedDataBase.pickle_loads; simpl;
    repeat (first [ rewrite Hf | rewrite firstn_all | rewrite Hd ]; simpl);
    rewrite <- !app_assoc; done.
Qed.

Lemma load_raises (io : io_fault) (s : state) :
  load_fails loads io s → file_mutex s ≠ OwnedElsewhere →
  ∃ e s', SerializedDataBase.load loads io s = Raise e s' ∧
          gates_released s s'.
Proof.
  intros (bytes & Hf & Hbad) H.
  destruct s as [d0 f fm rl hg mu sem wl fs cs]. simpl in *.
  unfold SerializedDataBase.load, try_finally, bind, gates_released.
  unfold SerializedDataBase.load_try.
  destruct io, fm; try done; simpl; rewrite Hf;
    unfold bind, getsize, SerializedDataBase.pickle_loads; simpl;
    repeat (first [ rewrite Hf | rewrite firstn_all ]; simpl);
    try (destruct Hbad as [ ? | Hl ]; [ done | ]; rewrite Hl);
    simpl; eauto 10.
Qed.

End Persistence.

Lemma fresh_gates_available (d : store) :
  gates_available 10 (set_data d fresh).
Proof. unfold gates_available. simpl. repeat split; (done || lia). Qed.

(** ** The functions on an instance that has its gates *)

Section GatedMethods.

Variable dumps : store -> list byte.
Variable loads : list byte -> option store.

Lemma set_value_keeps_gates (key : pykey) (value : pyobj) :
  keeps_gates (set_value key value).
Proof.
  intros [d f fm rl hg mu sem wl fs cs]. unfold set_value. simpl.
  by destruct (DataBase.set_value key value d).
Qed.

Lemma save_keeps_gates (io : io_fault) :
  keeps_gates (SerializedDataBase.save dumps io).
Proof.
  intros [d f fm rl hg mu sem wl fs cs].
  unfold SerializedDataBase.save, bind.
  destruct fm, io; simpl; done.
Qed.

Lemma load_keeps_gates (io : io_fault) :
  keeps_gates (SerializedDataBase.load loads io).
Proof.
  intros [d0 f fm rl hg mu sem wl fs cs].
  unfold SerializedDataBase.load, try_finally, bind.
  unfold SerializedDataBase.load_try.
  destruct fm; simpl; try done;
    destruct (fs !! f) as [ bytes | ] eqn:Hf; simpl; try done;
    destruct io; simpl; rewrite ?Hf; simpl; try done;
    unfold bind, getsize, SerializedDataBase.pickle_loads; simpl;
    rewrite ?Hf; simpl;
    try (match goal with |- context [ loads ?b ] => destruct (loads b) end);
    simpl; done.
Qed.

Lemma drain_keeps_gates (body : M unit) :
  keeps_gates body → keeps_gates (fun s => for_range (read_limit s) body s).
Proof. intros Hb s. by apply for_range_keeps_gates. Qed.

Lemma value_set_gated (key : pykey) (value : pyobj) (io : io_fault)
    (s : state) :
  has_gates s = true →
  SynchronizedDataBase.value_set dumps key value io s =
  Gated.value_set dumps key value io s.
Proof.
  intros Hg. unfold SynchronizedDataBase.value_set, Gated.value_set.
  rewrite bind_attr_skip by done.
  apply bind_ext_gated; [ done | done | apply wait_keeps_gates | ].
  intros [] s1 H1. rewrite bind_attr_skip by done.
  apply bind_ext_gated; [ done | done | apply wait_keeps_gates | ].
  intros [] s2 H2.
  apply bind_ext_gated;
    [ done
    | apply for_range_gated; [ apply wait_keeps_gates | done ]
    | apply drain_keeps_gates, wait_keeps_gates | ].
  intros [] s3 H3.
  apply bind_ext_gated; [ done | done | apply set_value_keeps_gates | ].
  intros r s4 H4.
  apply bind_ext_gated; [ done | done | apply save_keeps_gates | ].
  intros [] s5 H5.
  apply bind_ext_gated;
    [ done
    | apply for_range_gated; [ apply release_semaphore_keeps_gates | done ]
    | apply drain_keeps_gates, release_semaphore_keeps_gates | ].
  intros [] s6 H6. rewrite bind_attr_skip by done.
  apply bind_ext_gated; [ done | done | apply release_mutex_keeps_gates | ].
  intros [] s7 H7. by rewrite bind_attr_skip.
Qed.

Lemma value_get_gated (key : pykey) (io : io_fault) (s : state) :
  has_gates s = true →
  SynchronizedDataBase.value_get loads key io s =
  Gated.value_get loads key io s.
Proof.
  intros Hg. unfold SynchronizedDataBase.value_get, Gated.value_get.
  rewrite bind_attr_skip by done.
  apply bind_ext_gated; [ done | done | apply wait_keeps_gates | ].
  intros [] s1 H1.
  apply bind_ext_gated; [ done | done | apply load_keeps_gates | ].
  intros [] s2 H2.
  apply bind_ext_gated; [ done | done | by intros ? | ].
  intros d s3 H3. by rewrite bind_attr_skip.
Qed.

Lemma value_delete_gated (key : pykey) (s : state) :
  has_gates s = true → value_delete key s = Gated.value_delete key s.
Proof.
  intros Hg. unfold value_delete, Gated.value_delete.
  rewrite bind_attr_skip by done.
  apply bind_ext_gated; [ done | done | apply wait_keeps_gates | ].
  intros [] s1 H1. rewrite bind_attr_skip by done.
  apply bind_ext_gated; [ done | done | apply wait_keeps_gates | ].
  intros [] s2 H2.
  apply bind_ext_gated;
    [ done
    | apply for_range_gated; [ apply wait_keeps_gates | done ]
    | apply drain_keeps_gates, wait_keeps_gates | ].
  done.
Qed.

(** Without its gates an instance answers every call of the three functions
    with [AttributeError], before anything else happens. *)
Lemma value_set_ungated (key : pykey) (value : pyobj) (io : io_fault)
    (s : state) :
  has_gates s = false →
  SynchronizedDataBase.value_set dumps key value io s =
  Raise (AttributeError "write_lock") s.
Proof.
  intros Hg. unfold SynchronizedDataBase.value_set, bind.
  by rewrite gate_attr_raises.
Qed.

Lemma value_get_ungated (key : pykey) (io : io_fault) (s : state) :
  has_gates s = false →
  SynchronizedDataBase.value_get loads key io s =
  Raise (AttributeError "read_semaphore") s.
Proof.
  intros Hg. unfold SynchronizedDataBase.value_get, bind.
  by rewrite gate_attr_raises.
Qed.

End GatedMethods.

(** ** [value_set] and [value_get] *)

Section Synchronized.

Variable dumps : store -> list byte.
Variable loads : list byte -> option store.

Local Arguments WaitForSingleObject : simpl never.
Local Arguments ReleaseMutex : simpl never.
Local Arguments for_range : simpl never.
Local Arguments SerializedDataBase.save : simpl never.
Local Arguments SerializedDataBase.load : simpl never.

Lemma value_set_returns (key : pykey) (value : pyobj) (s : state) :
  gates_available (read_limit s) s →
  SynchronizedDataBase.value_set dumps key value NoFault s =
  Return (DataBase.set_value key value (data s)).1
    (set_files
       (<[filename s := dumps (DataBase.set_value key value (data s)).2]>
          (files s))
       (set_data (DataBase.set_value key value (data s)).2
          (logs (writer_calls (read_limit s) (filename s)
                   (dumps (DataBase.set_value key value (data s)).2)) s))).
Proof.
  intros (Hg & Hw & Hm & Hf & Hn & Hmax).
  destruct s as [d f fm rl hg mu [c mx] wl fs cs]. simpl in *. subst hg.
  rewrite value_set_gated by done. unfold Gated.value_set, bind.
  rewrite wait_mutex_returns by done. simpl.
  rewrite wait_mutex_returns by done. simpl.
  rewrite drain_returns by done. simpl.
  unfold set_value. simpl.
  destruct (DataBase.set_value key value d) as [result d'] eqn:E. simpl.
  rewrite save_returns by done. simpl.
  rewrite refill_returns by (simpl; lia). simpl.
  erewrite (release_acquired Mutex mu) by done. simpl.
  erewrite (release_acquired WriteLock wl) by done. simpl.
  unfold ret, set_files, set_data, logs, writer_calls, save_calls. simpl.
  rewrite <- !app_assoc. simpl.
  replace (c - rl + rl)%nat with c by lia. done.
Qed.

Lemma value_set_raises (key : pykey) (value : pyobj) (io : io_fault)
    (s : state) :
  io ≠ NoFault → gates_available (read_limit s) s →
  ∃ e s', SynchronizedDataBase.value_set dumps key value io s = Raise e s' ∧
          write_lock s' = acquired (write_lock s) ∧
          mutex s' = acquired (mutex s) ∧
          read_semaphore s' = drained (read_limit s) (read_semaphore s).
Proof.
  intros Hio (Hg & Hw & Hm & Hf & Hn & Hmax).
  destruct s as [d f fm rl hg mu [c mx] wl fs cs]. simpl in *. subst hg.
  rewrite value_set_gated by done. unfold Gated.value_set, bind.
  rewrite wait_mutex_returns by done. simpl.
  rewrite wait_mutex_returns by done. simpl.
  rewrite drain_returns by done. simpl.
  unfold set_value. simpl.
  destruct (DataBase.set_value key value d) as [result d'] eqn:E. simpl.
  match goal with
  | |- context [ SerializedDataBase.save dumps io ?s0 ] =>
      destruct (save_raises dumps io s0 Hio Hf)
        as (e & s' & -> & _ & _ & Hwl & Hmu & Hsem)
  end.
  exists e, s'. simpl in *. by rewrite Hwl, Hmu, Hsem.
Qed.

Lemma value_get_returns (key : pykey) (s : state) (d : store) :
  snapshot loads s = Some d → slot_available s →
  SynchronizedDataBase.value_get loads key NoFault s =
  Return (DataBase.get_value key d) (set_data d (logs (reader_calls s) s)).
Proof.
  intros Hd (Hg & Hf & Hn & Hmax).
  destruct s as [d0 f fm rl hg mu [c mx] wl fs cs]. simpl in *. subst hg.
  unfold snapshot, reader_calls in *. simpl in *.
  rewrite value_get_gated by done. unfold Gated.value_get, bind. simpl.
  destruct c as [ | c ]; [ lia | ]. simpl.
  destruct (fs !! f) as [ bytes | ] eqn:E.
  - erewrite load_existing by done. simpl.
    unfold get_value, ReleaseSemaphore. simpl.
    destruct (decide (c < mx)%nat); [ | lia ].
    unfold ret, set_data, set_semaphore, logs, load_calls. simpl.
    by rewrite <- !app_assoc.
  - injection Hd as <-. rewrite load_missing by done. simpl.
    unfold get_value, ReleaseSemaphore. simpl.
    destruct (decide (c < mx)%nat); [ | lia ].
    unfold ret, set_data, set_semaphore, logs. simpl.
    by rewrite <- !app_assoc.
Qed.

Lemma value_get_raises (key : pykey) (io : io_fault) (s : state) :
  load_fails loads io s → slot_available s →
  ∃ e s', SynchronizedDataBase.value_get loads key io s = Raise e s' ∧
          read_semaphore s' = drained 1 (read_semaphore s).
Proof.
  intros Hbad (Hg & Hf & Hn & Hmax).
  destruct s as [d0 f fm rl hg mu [c mx] wl fs cs]. simpl in *. subst hg.
  rewrite value_get_gated by done. unfold Gated.value_get, bind. simpl.
  destruct c as [ | c ]; [ lia | ]. simpl.
  match goal with
  | |- context [ SerializedDataBase.load loads io ?s0 ] =>
      destruct (load_raises loads io s0 Hbad Hf)
        as (e & s' & -> & _ & _ & Hsem)
  end.
  exists e, s'. simpl in *. rewrite Hsem. unfold drained. simpl.
  by rewrite Nat.sub_0_r.
Qed.

Lemma value_delete_raises (key : pykey) (s : state) :
  gates_available (read_limit s) s →
  ∃ s', value_delete key s =
          Raise (RuntimeError "super(): __class__ cell not found") s' ∧
        write_lock s' = acquired (write_lock s) ∧
        mutex s' = acquired (mutex s) ∧
        read_semaphore s' = drained (read_limit s) (read_semaphore s).
Proof.
  intros (Hg & Hw & Hm & Hf & Hn & Hmax).
  destruct s as [d f fm rl hg mu [c mx] wl fs cs]. simpl in *. subst hg.
  rewrite value_delete_gated by done. unfold Gated.value_delete, bind.
  rewrite wait_mutex_returns by done. simpl.
  rewrite wait_mutex_returns by done. simpl.
  rewrite drain_returns by done. simpl.
  eexists. repeat split.
Qed.

(** What [delete] does after [value_set(0, 1)] on a fresh store. *)
Lemma delete_after_value_set :
  loads (dumps {[KInt 0 := PyInt 1]}) = Some {[KInt 0 := PyInt 1]} →
  ∃ s1 s2 s3,
    SynchronizedDataBase.value_set dumps (KInt 0) (PyInt 1) NoFault fresh =
      Return true s1 ∧
    delete (KInt 0) s1 = Return (PyInt 1) s2 ∧
    data s2 = ∅ ∧
    calls s2 = calls s1 ∧
    files s2 = files s1 ∧
    snapshot loads s2 = Some {[KInt 0 := PyInt 1]} ∧
    value_delete (KInt 0) s1 =
      Raise (RuntimeError "super(): __class__ cell not found") s3 ∧
    write_lock s3 = Owned 0 ∧ mutex s3 = Owned 0 ∧
    read_semaphore s3 = Semaphore 0 10.
Proof.
  intros HL.
  pose proof (value_set_returns (KInt 0) (PyInt 1) fresh
                (fresh_gates_available ∅)) as H1.
  change (DataBase.set_value (KInt 0) (PyInt 1) (data fresh))
    with (true, ({[KInt 0 := PyInt 1]} : store)) in H1.
  simpl in H1.
  match type of H1 with _ = Return _ ?s1 =>
    destruct (value_delete_raises (KInt 0) s1) as (s3 & H3 & Hw & Hm & Hs);
      [ exact (fresh_gates_available ∅) | exists s1; eexists _, s3 ]
  end.
  split; [ exact H1 | ].
  unfold delete. simpl.
  change (DataBase.delete (KInt 0) {[KInt 0 := PyInt 1]})
    with (PyInt 1, (∅ : store)).
  split; [ reflexivity | ]. simpl. do 3 (split; [ reflexivity | ]).
  split.
  { unfold snapshot. simpl. by rewrite lookup_insert_eq. }
  split; [ exact H3 | ]. rewrite Hw, Hm, Hs. repeat split.
Qed.

Lemma drain_blocks (n : nat) (s : state) :
  (sem_count (read_semaphore s) < n)%nat →
  for_range n (WaitForSingleObject ReadSemaphore) s =
  Blocked (set_semaphore (Semaphore 0 (sem_max (read_semaphore s)))
             (logs (replicate (S (sem_count (read_semaphore s)))
                      (CallWait ReadSemaphore)) s)).
Proof.
  revert s. induction n as [ | n IH ]; intros s Hn; [ lia | ].
  destruct s as [d f fm rl hg mu [c mx] wl fs cs]. simpl in Hn.
  unfold for_range; fold for_range. unfold bind.
  destruct c as [ | c ].
  - reflexivity.
  - unfold WaitForSingleObject at 1. simpl.
    rewrite IH by (simpl; lia).
    unfold set_semaphore, logs, log. simpl. by rewrite <- app_assoc.
Qed.

Lemma value_set_blocks (key : pykey) (value : pyobj) (io : io_fault)
    (s : state) :
  has_gates s = true →
  write_lock s ≠ OwnedElsewhere → mutex s ≠ OwnedElsewhere →
  (sem_count (read_semaphore s) < read_limit s)%nat →
  SynchronizedDataBase.value_set dumps key value io s =
  Blocked
    (set_semaphore (Semaphore 0 (sem_max (read_semaphore s)))
       (set_mutex Mutex (acquired (mutex s))
          (set_mutex WriteLock (acquired (write_lock s))
             (logs ([CallWait WriteLock; CallWait Mutex] ++
                    replicate (S (sem_count (read_semaphore s)))
                      (CallWait ReadSemaphore)) s)))).
Proof.
  intros Hg Hw Hm Hn.
  destruct s as [d f fm rl hg mu [c mx] wl fs cs]. simpl in *. subst hg.
  rewrite value_set_gated by done. unfold Gated.value_set, bind.
  rewrite wait_mutex_returns by done. simpl.
  rewrite wait_mutex_returns by done. simpl.
  rewrite drain_blocks by done. simpl.
  unfold set_semaphore, logs, log. simpl. by rewrite <- !app_assoc.
Qed.

Lemma save_blocks (io : io_fault) (s : state) :
  file_mutex s = OwnedElsewhere →
  SerializedDataBase.save dumps io s = Blocked (log (CallWait FileMutex) s).
Proof.
  intros H. destruct s as [d f fm rl hg mu sem wl fs cs]. simpl in H.
  subst fm. reflexivity.
Qed.

Lemma value_set_blocks_at_save (key : pykey) (value : pyobj) (io : io_fault)
    (s : state) :
  has_gates s = true →
  write_lock s ≠ OwnedElsewhere → mutex s ≠ OwnedElsewhere →
  (read_limit s ≤ sem_count (read_semaphore s))%nat →
  file_mutex s = OwnedElsewhere →
  SynchronizedDataBase.value_set dumps key value io s =
  Blocked
    (set_data (DataBase.set_value key value (data s)).2
       (set_semaphore (drained (read_limit s) (read_semaphore s))
          (set_mutex Mutex (acquired (mutex s))
             (set_mutex WriteLock (acquired (write_lock s))
                (logs ([CallWait WriteLock; CallWait Mutex] ++
                       replicate (read_limit s) (CallWait ReadSemaphore) ++
                       [CallWait FileMutex]) s))))).
Proof.
  intros Hg Hw Hm Hn Hf.
  destruct s as [d f fm rl hg mu [c mx] wl fs cs]. simpl in *. subst hg fm.
  rewrite value_set_gated by done. unfold Gated.value_set, bind.
  rewrite wait_mutex_returns by done. simpl.
  rewrite wait_mutex_returns by done. simpl.
  rewrite drain_returns by done. simpl.
  unfold set_value. simpl.
  destruct (DataBase.set_value key value d) as [result d'] eqn:E. simpl.
  rewrite ?save_blocks by done. simpl.
  unfold set_data, set_semaphore, logs, log, drained. simpl.
  by rewrite <- !app_assoc.
Qed.

Lemma value_get_blocks (key : pykey) (io : io_fault) (s : state) :
  has_gates s = true →
  sem_count (read_semaphore s) = 0%nat →
  SynchronizedDataBase.value_get loads key io s =
  Blocked (log (CallWait ReadSemaphore) s).
Proof.
  intros Hg Hn. rewrite value_get_gated by done.
  destruct s as [d f fm rl hg mu [c mx] wl fs cs]. simpl in *.
  subst c. reflexivity.
Qed.

End Synchronized.

(** ** The in-memory store *)

(** The assertions of the [__main__] block on [db1 = DataBase()], with
    [key_ = 0] and [value_ = 1]. *)
Example main_db1_assertions :
  (DataBase.set_value (KInt 0) (PyInt 1) DataBase.init).1 = true ∧
  DataBase.get_value (KInt 0)
    (DataBase.set_value (KInt 0) (PyInt 1) DataBase.init).2 = PyInt 1 ∧
  DataBase.get_value (KInt 0)
    (DataBase.delete (KInt 0)
       (DataBase.set_value (KInt 0) (PyInt 1) DataBase.init).2).2 ≠ PyInt 1.
Proof. vm_compute. repeat split. discriminate. Qed.

(** C3.  For every key and value: when the key is already in the mapping,
    [set_value] returns [False] and the mapping is unchanged; when it is
    not, [set_value] inserts the pair and returns [True]. *)
Theorem set_value_insert_if_absent (key : pykey) (value : pyobj)
    (d : store) :
  (is_Some (d !! key) → DataBase.set_value key value d = (false, d)) ∧
  (d !! key = None →
   DataBase.set_value key value d = (true, <[key := value]> d)).
Proof.
  unfold DataBase.set_value. split.
  - intros [v ->]. reflexivity.
  - intros ->. reflexivity.
Qed.

Lemma set_value_insert_if_absent_witness :
  DataBase.set_value (KInt 0) (PyInt 2) {[KInt 0 := PyInt 1]} =
    (false, {[KInt 0 := PyInt 1]}) ∧
  DataBase.set_value (KInt 0) (PyInt 1) ∅ =
    (true, <[KInt 0 := PyInt 1]> ∅).
Proof.
  split.
  - apply (proj1 (set_value_insert_if_absent (KInt 0) (PyInt 2)
                    {[KInt 0 := PyInt 1]})).
    exists (PyInt 1). reflexivity.
  - apply (proj2 (set_value_insert_if_absent (KInt 0) (PyInt 1) ∅)).
    reflexivity.
Defined.

(** C7.  For every key: [delete] of a key that is present removes it and
    returns the value that was stored; [delete] of a key that is absent
    returns [None] and leaves the mapping as it was. *)
Theorem delete_returns_stored_value (key : pykey) (d : store) :
  (∀ v, d !! key = Some v →
        DataBase.delete key d = (v, base.delete key d) ∧
        (DataBase.delete key d).2 !! key = None) ∧
  (d !! key = None → DataBase.delete key d = (PyNone, d)).
Proof.
  unfold DataBase.delete. split.
  - intros v ->. simpl. split; [ reflexivity | apply lookup_delete_eq ].
  - intros ->. reflexivity.
Qed.

Lemma delete_returns_stored_value_witness :
  (DataBase.delete (KInt 0) {[KInt 0 := PyList [PyInt 1; PyNone]]} =
     (PyList [PyInt 1; PyNone],
      base.delete (KInt 0) {[KInt 0 := PyList [PyInt 1; PyNone]]}) ∧
   (DataBase.delete (KInt 0) {[KInt 0 := PyList [PyInt 1; PyNone]]}).2
     !! KInt 0 = None) ∧
  DataBase.delete (KStr "k") {[KInt 0 := PyInt 1]} =
    (PyNone, {[KInt 0 := PyInt 1]}).
Proof.
  split.
  - apply (proj1 (delete_returns_stored_value (KInt 0)
                    {[KInt 0 := PyList [PyInt 1; PyNone]]})).
    reflexivity.
  - apply (proj2 (delete_returns_stored_value (KStr "k")
                    {[KInt 0 := PyInt 1]})).
    reflexivity.
Defined.

(** ** Persistence *)

(** C5.  When the snapshot file does not exist, [load] returns and the
    in-memory mapping is empty; when the file exists, the mapping that its
    bytes denote replaces the in-memory mapping, whatever that was. *)
Theorem load_replaces_store (loads : list byte -> option store) (s : state) :
  file_mutex s ≠ OwnedElsewhere →
  (files s !! filename s = None →
   ∀ io, ∃ s', SerializedDataBase.load loads io s = Return tt s' ∧
               data s' = ∅ ∧ files s' = files s) ∧
  (∀ bytes d,
     files s !! filename s = Some bytes → loads bytes = Some d →
     ∃ s', SerializedDataBase.load loads NoFault s = Return tt s' ∧
           data s' = d ∧ files s' = files s).
Proof.
  intros Hm. split.
  - intros Hf io. rewrite load_missing by done. eauto.
  - intros bytes d Hf Hd. erewrite load_existing by done. eauto.
Qed.

Lemma load_replaces_store_witness :
  (∀ io, ∃ s', SerializedDataBase.load Pickle.loads io
                 (set_data {[KInt 7 := PyStr "stale"]} fresh) = Return tt s' ∧
               data s' = ∅ ∧
               files s' = files (set_data {[KInt 7 := PyStr "stale"]} fresh)) ∧
  (∃ s', SerializedDataBase.load Pickle.loads NoFault
           (with_snapshot {[KInt 0 := PyInt 1]}
              (set_data {[KInt 7 := PyStr "stale"]} fresh)) = Return tt s' ∧
         data s' = {[KInt 0 := PyInt 1]} ∧
         files s' = files (with_snapshot {[KInt 0 := PyInt 1]}
                             (set_data {[KInt 7 := PyStr "stale"]} fresh))).
Proof.
  split.
  - apply (proj1 (load_replaces_store Pickle.loads
                    (set_data {[KInt 7 := PyStr "stale"]} fresh)
                    ltac:(discriminate))).
    reflexivity.
  - apply (proj2 (load_replaces_store Pickle.loads
                    (with_snapshot {[KInt 0 := PyInt 1]}
                       (set_data {[KInt 7 := PyStr "stale"]} fresh))
                    ltac:(discriminate))
             (Pickle.dumps {[KInt 0 := PyInt 1]})).
    + apply lookup_insert_eq.
    + apply loads_dumps.
Defined.

(** C4.  For every mapping, the empty one and those with nested values
    included: [save] followed by [load] leaves in memory a mapping equal to
    the one saved, whatever was in the file before and whatever is in
    memory when [load] starts. *)
Theorem save_load_round_trip (dumps : store -> list byte)
    (loads : list byte -> option store) (s : state) (other : store) :
  loads (dumps (data s)) = Some (data s) →
  file_mutex s ≠ OwnedElsewhere →
  ∃ s', (SerializedDataBase.save dumps NoFault >>
         (fun s1 => Return tt (set_data other s1)) >>
         SerializedDataBase.load loads NoFault) s = Return tt s' ∧
        data s' = data s ∧
        files s' !! filename s = Some (dumps (data s)).
Proof.
  intros Hd Hm. unfold bind. rewrite save_returns by done.
  destruct s as [d f fm rl hg mu sem wl fs cs]. simpl in *.
  rewrite (load_existing loads _ (dumps d) d);
    [ | simpl; apply lookup_insert_eq | done | done ].
  eexists. split; [ reflexivity | ]. simpl. by rewrite lookup_insert_eq.
Qed.

Lemma save_load_round_trip_witness :
  ∃ s', (SerializedDataBase.save Pickle.dumps NoFault >>
         (fun s1 => Return tt (set_data ∅ s1)) >>
         SerializedDataBase.load Pickle.loads NoFault)
          (set_data {[KStr "k" := PyList [PyInt 1; PyList [PyNone]]]} fresh)
        = Return tt s' ∧
        data s' = {[KStr "k" := PyList [PyInt 1; PyList [PyNone]]]} ∧
        files s' !! "test.pkl" =
          Some (Pickle.dumps {[KStr "k" := PyList [PyInt 1; PyList [PyNone]]]}).
Proof.
  exact (save_load_round_trip Pickle.dumps Pickle.loads
           (set_data {[KStr "k" := PyList [PyInt 1; PyList [PyNone]]]} fresh)
           ∅ (loads_dumps _) ltac:(discriminate)).
Defined.

(** ** The synchronized store *)

Lemma fresh_slot_available : slot_available fresh.
Proof. unfold slot_available. simpl. repeat split; (done || lia). Qed.

Lemma snapshot_slot_available (d : store) :
  slot_available (with_snapshot d fresh).
Proof. unfold slot_available. simpl. repeat split; (done || lia). Qed.

(** C6.  A [value_set] that meets no failure makes exactly these calls, in
    this order: wait on the write lock and on the mutex, wait on the read
    semaphore once per slot of the read limit, the calls of [save] with the
    pickle of the resulting mapping, release the read semaphore once per
    slot, release the mutex and the write lock.  It returns the boolean of
    the in-memory [set_value], the file holds the pickle of the resulting
    mapping, and every gate is back as it was.  The in-memory insert comes
    after the drain and before [save]: a call stopped in its drain, for
    want of a slot, has left the mapping as it was, and a call stopped at
    the first call of [save] has made the insert already. *)
Theorem value_set_protocol (dumps : store -> list byte)
    (key : pykey) (value : pyobj) (s : state) :
  (gates_available (read_limit s) s →
   ∃ s', SynchronizedDataBase.value_set dumps key value NoFault s =
           Return (DataBase.set_value key value (data s)).1 s' ∧
         data s' = (DataBase.set_value key value (data s)).2 ∧
         files s' = <[filename s := dumps (data s')]> (files s) ∧
         calls s' =
           calls s ++
           [CallWait WriteLock; CallWait Mutex] ++
           replicate (read_limit s) (CallWait ReadSemaphore) ++
           [CallWait FileMutex; CallCreateFile (filename s) GENERIC_WRITE;
            CallWriteFile (filename s) (dumps (data s'));
            CallCloseHandle (Some (filename s));
            CallReleaseMutex FileMutex] ++
           replicate (read_limit s) (CallReleaseSemaphore 1) ++
           [CallReleaseMutex Mutex; CallReleaseMutex WriteLock] ∧
         gates_released s s' ∧ file_mutex s' = file_mutex s) ∧
  (has_gates s = true →
   write_lock s ≠ OwnedElsewhere → mutex s ≠ OwnedElsewhere →
   (sem_count (read_semaphore s) < read_limit s)%nat →
   ∀ io, ∃ s',
     SynchronizedDataBase.value_set dumps key value io s = Blocked s' ∧
     data s' = data s ∧ files s' = files s ∧
     calls s' =
       calls s ++
       [CallWait WriteLock; CallWait Mutex] ++
       replicate (S (sem_count (read_semaphore s)))
         (CallWait ReadSemaphore)) ∧
  (has_gates s = true →
   write_lock s ≠ OwnedElsewhere → mutex s ≠ OwnedElsewhere →
   (read_limit s ≤ sem_count (read_semaphore s))%nat →
   file_mutex s = OwnedElsewhere →
   ∀ io, ∃ s',
     SynchronizedDataBase.value_set dumps key value io s = Blocked s' ∧
     data s' = (DataBase.set_value key value (data s)).2 ∧
     files s' = files s ∧
     calls s' =
       calls s ++
       [CallWait WriteLock; CallWait Mutex] ++
       replicate (read_limit s) (CallWait ReadSemaphore) ++
       [CallWait FileMutex]).
Proof.
  split; [ | split ].
  - intros H. rewrite value_set_returns by done.
    eexists. split; [ reflexivity | ]. unfold gates_released. simpl. done.
  - intros Hg Hw Hm Hn io. rewrite value_set_blocks by done.
    eexists. split; [ reflexivity | ].
    destruct s as [d f fm rl hg mu [c mx] wl fs cs]. simpl. done.
  - intros Hg Hw Hm Hn Hf io. rewrite value_set_blocks_at_save by done.
    eexists. split; [ reflexivity | ].
    destruct s as [d f fm rl hg mu [c mx] wl fs cs]. simpl. done.
Qed.

Lemma value_set_protocol_witness :
  (∃ s', SynchronizedDataBase.value_set Pickle.dumps (KInt 0) (PyInt 1)
           NoFault fresh = Return true s' ∧
         data s' = {[KInt 0 := PyInt 1]} ∧
         files s' = {["test.pkl" := Pickle.dumps (data s')]} ∧
         calls s' =
           calls fresh ++
           [CallWait WriteLock; CallWait Mutex] ++
           replicate 10 (CallWait ReadSemaphore) ++
           [CallWait FileMutex; CallCreateFile "test.pkl" GENERIC_WRITE;
            CallWriteFile "test.pkl" (Pickle.dumps (data s'));
            CallCloseHandle (Some "test.pkl"); CallReleaseMutex FileMutex] ++
           replicate 10 (CallReleaseSemaphore 1) ++
           [CallReleaseMutex Mutex; CallReleaseMutex WriteLock] ∧
         gates_released fresh s' ∧ file_mutex s' = file_mutex fresh) ∧
  (∀ io, ∃ s',
     SynchronizedDataBase.value_set Pickle.dumps (KInt 0) (PyInt 1) io
       (set_semaphore (Semaphore 9 10) fresh) = Blocked s' ∧
     data s' = ∅ ∧ files s' = ∅ ∧
     calls s' =
       calls fresh ++
       [CallWait WriteLock; CallWait Mutex] ++
       replicate 10 (CallWait ReadSemaphore)) ∧
  (∀ io, ∃ s',
     SynchronizedDataBase.value_set Pickle.dumps (KInt 0) (PyInt 1) io
       (set_mutex FileMutex OwnedElsewhere fresh) = Blocked s' ∧
     data s' = {[KInt 0 := PyInt 1]} ∧ files s' = ∅ ∧
     calls s' =
       calls fresh ++
       [CallWait WriteLock; CallWait Mutex] ++
       replicate 10 (CallWait ReadSemaphore) ++ [CallWait FileMutex]).
Proof.
  split; [ | split ].
  - exact (proj1 (value_set_protocol Pickle.dumps (KInt 0) (PyInt 1) fresh)
             (fresh_gates_available ∅)).
  - refine (proj1 (proj2 (value_set_protocol Pickle.dumps (KInt 0) (PyInt 1)
                            (set_semaphore (Semaphore 9 10) fresh)))
              _ _ _ _).
    + reflexivity.
    + discriminate.
    + discriminate.
    + simpl. lia.
  - refine (proj2 (proj2 (value_set_protocol Pickle.dumps (KInt 0) (PyInt 1)
                            (set_mutex FileMutex OwnedElsewhere fresh)))
              _ _ _ _ _).
    + reflexivity.
    + discriminate.
    + discriminate.
    + simpl. lia.
    + reflexivity.
Defined.

(** C9.  [value_set] saves unconditionally: for a key that is already
    present it returns [False] and leaves the mapping as it was, and still
    writes the file, which then holds the pickle of that unchanged
    mapping. *)
Theorem value_set_saves_when_key_present (dumps : store -> list byte)
    (key : pykey) (value : pyobj) (s : state) :
  is_Some (data s !! key) →
  gates_available (read_limit s) s →
  ∃ s', SynchronizedDataBase.value_set dumps key value NoFault s =
          Return false s' ∧
        data s' = data s ∧
        CallWriteFile (filename s) (dumps (data s)) ∈ calls s' ∧
        files s' = <[filename s := dumps (data s)]> (files s).
Proof.
  intros [v Hv] H. rewrite value_set_returns by done.
  unfold DataBase.set_value. rewrite Hv. simpl.
  eexists. split; [ reflexivity | ]. simpl. split; [ done | ].
  split; [ | done ].
  unfold writer_calls, save_calls. set_solver.
Qed.

Lemma value_set_saves_when_key_present_witness :
  ∃ s', SynchronizedDataBase.value_set Pickle.dumps (KInt 0) (PyInt 2)
          NoFault (set_data {[KInt 0 := PyInt 1]} fresh) = Return false s' ∧
        data s' = {[KInt 0 := PyInt 1]} ∧
        CallWriteFile "test.pkl" (Pickle.dumps {[KInt 0 := PyInt 1]})
          ∈ calls s' ∧
        files s' = {["test.pkl" := Pickle.dumps {[KInt 0 := PyInt 1]}]}.
Proof.
  refine (value_set_saves_when_key_present Pickle.dumps (KInt 0) (PyInt 2)
            (set_data {[KInt 0 := PyInt 1]} fresh) _
            (fresh_gates_available _)).
  exists (PyInt 1). reflexivity.
Defined.

(** C10.  A key bound to [None] reads like a key that is absent: for a
    mapping that binds the key to [None] and a mapping without the key,
    [get_value] returns [None] on both, and so does [value_get] on stores
    whose snapshots are these mappings. *)
Theorem none_value_reads_as_absent (loads : list byte -> option store)
    (key : pykey) (d1 d2 : store) (s1 s2 : state) :
  d1 !! key = Some PyNone → d2 !! key = None →
  snapshot loads s1 = Some d1 → snapshot loads s2 = Some d2 →
  slot_available s1 → slot_available s2 →
  DataBase.get_value key d1 = PyNone ∧
  DataBase.get_value key d2 = PyNone ∧
  ∃ s1' s2',
    SynchronizedDataBase.value_get loads key NoFault s1 = Return PyNone s1' ∧
    SynchronizedDataBase.value_get loads key NoFault s2 = Return PyNone s2'.
Proof.
  intros H1 H2 Hs1 Hs2 Ha1 Ha2.
  assert (G1 : DataBase.get_value key d1 = PyNone)
    by (unfold DataBase.get_value; by rewrite H1).
  assert (G2 : DataBase.get_value key d2 = PyNone)
    by (unfold DataBase.get_value; by rewrite H2).
  repeat split; try done.
  rewrite (value_get_returns loads key s1 d1) by done.
  rewrite (value_get_returns loads key s2 d2) by done.
  rewrite G1, G2. eauto.
Qed.

Lemma none_value_reads_as_absent_witness :
  DataBase.get_value (KInt 0) {[KInt 0 := PyNone]} = PyNone ∧
  DataBase.get_value (KInt 0) ∅ = PyNone ∧
  ∃ s1' s2',
    SynchronizedDataBase.value_get Pickle.loads (KInt 0) NoFault
      (with_snapshot {[KInt 0 := PyNone]} fresh) = Return PyNone s1' ∧
    SynchronizedDataBase.value_get Pickle.loads (KInt 0) NoFault fresh =
      Return PyNone s2'.
Proof.
  apply (none_value_reads_as_absent Pickle.loads (KInt 0)
           {[KInt 0 := PyNone]} ∅
           (with_snapshot {[KInt 0 := PyNone]} fresh) fresh).
  - reflexivity.
  - reflexivity.
  - unfold snapshot, with_snapshot. simpl. rewrite lookup_insert_eq.
    apply loads_dumps.
  - reflexivity.
  - apply snapshot_slot_available.
  - apply fresh_slot_available.
Defined.

(** ** Failures inside the protected section *)

(** C2, as stated, fails: a [value_set] whose [WriteFile] fails raises to the
    caller while the write lock, the mutex and all ten read slots are still
    held, and a [value_get] whose [ReadFile] fails raises while its read
    slot is still held. *)
Lemma failure_leaves_gates_held_example :
  (∃ s', SynchronizedDataBase.value_set Pickle.dumps (KInt 0) (PyInt 1)
           TransferFails fresh = Raise (ApiError "WriteFile") s' ∧
         write_lock s' = Owned 0 ∧ mutex s' = Owned 0 ∧
         read_semaphore s' = Semaphore 0 10 ∧
         ¬ gates_released fresh s') ∧
  (∃ s', SynchronizedDataBase.value_get Pickle.loads (KInt 0)
           TransferFails (with_snapshot {[KInt 0 := PyInt 1]} fresh) =
           Raise (ApiError "ReadFile") s' ∧
         read_semaphore s' = Semaphore 9 10 ∧
         ¬ gates_released (with_snapshot {[KInt 0 := PyInt 1]} fresh) s').
Proof.
  unfold with_snapshot, gates_released.
  generalize Pickle.dumps Pickle.loads. intros dumps loads. split.
  - vm_compute. eexists. split; [ reflexivity | ].
    repeat split. intros (Hw & _). discriminate Hw.
  - vm_compute. eexists. split; [ reflexivity | ].
    repeat split. intros (_ & _ & Hs). discriminate Hs.
Qed.

(** C2, amended.  When the protected section fails, the error reaches the
    caller with the gates of the call still held, none of them released:
    after a failing [value_set] the write lock and the mutex are held once
    more than before and every slot of the read limit is taken; after a
    failing [value_get] one slot is taken. *)
Theorem failure_leaves_gates_held (dumps : store -> list byte)
    (loads : list byte -> option store) (key : pykey) (value : pyobj)
    (io : io_fault) (s : state) :
  (io ≠ NoFault → gates_available (read_limit s) s →
   ∃ e s', SynchronizedDataBase.value_set dumps key value io s = Raise e s' ∧
           write_lock s' = acquired (write_lock s) ∧
           mutex s' = acquired (mutex s) ∧
           read_semaphore s' = drained (read_limit s) (read_semaphore s)) ∧
  (load_fails loads io s → slot_available s →
   ∃ e s', SynchronizedDataBase.value_get loads key io s = Raise e s' ∧
           read_semaphore s' = drained 1 (read_semaphore s)).
Proof.
  split.
  - apply value_set_raises.
  - apply value_get_raises.
Qed.

Lemma failure_leaves_gates_held_witness :
  (∃ e s', SynchronizedDataBase.value_set Pickle.dumps (KInt 0) (PyInt 1)
             CreateFileFails fresh = Raise e s' ∧
           write_lock s' = Owned 0 ∧ mutex s' = Owned 0 ∧
           read_semaphore s' = Semaphore 0 10) ∧
  (∃ e s', SynchronizedDataBase.value_get Pickle.loads (KInt 0) NoFault
             (set_files {["test.pkl" := [x00]]} fresh) = Raise e s' ∧
           read_semaphore s' = Semaphore 9 10).
Proof.
  split.
  - refine (proj1 (failure_leaves_gates_held Pickle.dumps Pickle.loads
                     (KInt 0) (PyInt 1) CreateFileFails fresh)
              _ (fresh_gates_available ∅)).
    discriminate.
  - refine (proj2 (failure_leaves_gates_held Pickle.dumps Pickle.loads
                     (KInt 0) (PyInt 1) NoFault
                     (set_files {["test.pkl" := [x00]]} fresh))
              _ _).
    + exists [x00]. split; [ | right ]; vm_compute; reflexivity.
    + unfold slot_available. simpl. repeat split; (done || lia).
Defined.

(** ** Construction *)

Section ConstructionLemmas.

Variable loads : list byte -> option store.

Local Arguments SerializedDataBase.load : simpl never.

Lemma load_frame (io : io_fault) (s : state) :
  filename (outcome_state (SerializedDataBase.load loads io s)) = filename s ∧
  read_limit (outcome_state (SerializedDataBase.load loads io s))
    = read_limit s ∧
  files (outcome_state (SerializedDataBase.load loads io s)) = files s.
Proof.
  destruct s as [d0 f fm rl hg mu sem wl fs cs].
  unfold SerializedDataBase.load, try_finally, bind.
  unfold SerializedDataBase.load_try.
  destruct fm; simpl; try done;
    destruct (fs !! f) as [ bytes | ] eqn:Hf; simpl; try done;
    destruct io; simpl; rewrite ?Hf; simpl; try done;
    unfold bind, getsize, SerializedDataBase.pickle_loads; simpl;
    rewrite ?Hf; simpl;
    try (match goal with |- context [ loads ?b ] => destruct (loads b) end);
    simpl; done.
Qed.

Lemma init_load (fname : string) (io : io_fault)
    (fs : gmap string (list byte)) (d0 : store) (s0 : state) :
  match fs !! fname with
  | Some bytes => loads bytes = Some d0 ∧ io = NoFault
  | None => d0 = ∅
  end →
  files s0 = fs → filename s0 = fname → file_mutex s0 = Unowned →
  ∃ cs1, SerializedDataBase.load loads io s0 =
         Return tt (set_data d0 (logs cs1 s0)).
Proof.
  intros Hd <- <- Hm. destruct (files s0 !! filename s0) as [ bytes | ] eqn:E.
  - destruct Hd as (Hd & ->).
    erewrite load_existing by (done || by rewrite Hm). eauto.
  - subst d0. rewrite load_missing by (done || by rewrite Hm). eauto.
Qed.

Lemma init_gated (fname : string) (md : mode) (io : io_fault)
    (fs : gmap string (list byte)) (ns : gmap string kernel_object)
    (d0 : store) (m w : mutex_state) (c : semaphore_state) :
  match fs !! fname with
  | Some bytes => loads bytes = Some d0 ∧ io = NoFault
  | None => d0 = ∅
  end →
  gates_found md ns = Some (m, c, w) →
  ∃ cs, SynchronizedDataBase.init loads fname md io fs ns =
        Return tt (State d0 fname Unowned 10 true m c w fs cs).
Proof.
  intros Hd Hg. unfold SynchronizedDataBase.init, bind. simpl.
  match goal with
  | |- context [ SerializedDataBase.load loads io ?s0 ] =>
      destruct (init_load fname io fs d0 s0 Hd) as (cs1 & ->); try done
  end.
  simpl. unfold gates_found in Hg.
  unfold SynchronizedDataBase.create_gates, SynchronizedDataBase.CreateMutex,
    SynchronizedDataBase.CreateSemaphore, bind, ret.
  repeat case_decide; try done.
  - simplify_eq. simpl. eauto.
  - simpl.
    destruct (ns !! "Global\DataMutex") as [ [] | ];
      destruct (ns !! "Global\ReadSemaphore") as [ [] | ];
      destruct (ns !! "Global\WriteLock") as [ [] | ];
      simpl in *; simplify_eq; eauto.
Qed.

Lemma init_ungated (fname : string) (md : mode) (io : io_fault)
    (fs : gmap string (list byte)) (ns : gmap string kernel_object)
    (d0 : store) :
  match fs !! fname with
  | Some bytes => loads bytes = Some d0 ∧ io = NoFault
  | None => d0 = ∅
  end →
  md ≠ "threads" → md ≠ "processes" →
  ∃ s, SynchronizedDataBase.init loads fname md io fs ns = Return tt s ∧
       has_gates s = false ∧ data s = d0 ∧ files s = fs ∧
       filename s = fname ∧ read_limit s = 10%nat ∧ file_mutex s = Unowned.
Proof.
  intros Hd H1 H2. unfold SynchronizedDataBase.init, bind. simpl.
  match goal with
  | |- context [ SerializedDataBase.load loads io ?s0 ] =>
      destruct (init_load fname io fs d0 s0 Hd) as (cs1 & ->); try done
  end.
  simpl. repeat case_decide; try done.
  unfold ret. eexists. split; [ reflexivity | ]. done.
Qed.

Lemma init_inv (fname : string) (md : mode) (io : io_fault)
    (fs : gmap string (list byte)) (ns : gmap string kernel_object)
    (s : state) :
  SynchronizedDataBase.init loads fname md io fs ns = Return tt s →
  read_limit s = 10%nat ∧ files s = fs ∧ filename s = fname ∧
  ((has_gates s = true ∧
    gates_found md ns = Some (mutex s, read_semaphore s, write_lock s)) ∨
   (has_gates s = false ∧ md ≠ "threads" ∧ md ≠ "processes")).
Proof.
  unfold SynchronizedDataBase.init, bind. simpl.
  match goal with
  | |- context [ SerializedDataBase.load loads io ?s0 ] =>
      pose proof (load_frame io s0) as (F1 & F2 & F3);
      pose proof (load_keeps_gates loads io s0) as F4;
      destruct (SerializedDataBase.load loads io s0) as [ [] s1 | | ];
      [ | discriminate.. ]
  end.
  simpl in *. unfold gates_found.
  unfold SynchronizedDataBase.create_gates, SynchronizedDataBase.CreateMutex,
    SynchronizedDataBase.CreateSemaphore, bind, ret.
  repeat case_decide; simpl.
  - intros [= <-]. simpl. rewrite F1, F3. eauto 10.
  - destruct (ns !! "Global\DataMutex") as [ [] | ];
      destruct (ns !! "Global\ReadSemaphore") as [ [] | ];
      destruct (ns !! "Global\WriteLock") as [ [] | ];
      simpl; intros [= <-]; simpl; rewrite F1, F3; eauto 10.
  - intros [= <-]. simpl. rewrite F1, F3, F4. eauto 10.
Qed.

Lemma init_returns (fname : string) (md : mode) (io : io_fault)
    (fs : gmap string (list byte)) (ns : gmap string kernel_object)
    (d0 : store) :
  match fs !! fname with
  | Some bytes => loads bytes = Some d0 ∧ io = NoFault
  | None => d0 = ∅
  end →
  creation_succeeds md ns →
  ∃ s, SynchronizedDataBase.init loads fname md io fs ns = Return tt s ∧
       data s = d0 ∧ files s = fs ∧ filename s = fname ∧
       read_limit s = 10%nat ∧ file_mutex s = Unowned ∧
       match gates_found md ns with
       | Some (m, c, w) =>
           has_gates s = true ∧ mutex s = m ∧ read_semaphore s = c ∧
           write_lock s = w
       | None => has_gates s = false
       end.
Proof.
  intros Hd Hc. destruct (gates_found md ns) as [ [ [m c] w ] | ] eqn:Hg.
  - destruct (init_gated fname md io fs ns d0 m w c Hd Hg) as (cs & ->).
    eexists. split; [ reflexivity | ]. done.
  - assert (H1 : md ≠ "threads").
    { intros ->. unfold gates_found in Hg. simpl in Hg. done. }
    assert (H2 : md ≠ "processes").
    { intros ->. destruct (Hc eq_refl) as [x Hx]. congruence. }
    destruct (init_ungated fname md io fs ns d0 Hd H1 H2)
      as (s & -> & ? & ? & ? & ? & ? & ?).
    eexists. split; [ reflexivity | ]. done.
Qed.

End ConstructionLemmas.

(** C8, as stated, fails: no construction yields a store whose read limit is
    3; the constructor takes a file name and a mode and nothing else. *)
Lemma read_capacity_not_configurable :
  ¬ ∃ fname md io fs ns s,
      SynchronizedDataBase.init Pickle.loads fname md io fs ns = Return tt s ∧
      read_limit s = 3%nat.
Proof.
  intros (fname & md & io & fs & ns & s & H & H3).
  apply init_inv in H as (H10 & _). congruence.
Qed.

(** C8, amended.  Construction takes a file name and a mode string and no
    read capacity; every store it builds has a read limit of 10.  In mode
    ['threads'], and in mode ['processes'] when no object named
    [Global\ReadSemaphore] exists yet, the read semaphore is created with
    initial and maximum count 10: up to ten readers can hold a slot at
    once, and with ten slots held an eleventh [value_get] waits.  In mode
    ['processes'] when that semaphore exists already, the store uses the
    existing object with the counts it has: as many readers can hold a
    slot as that object has slots free, be it fewer or more than ten.
    With any other mode string no gate is created, and [value_set] and
    [value_get] raise [AttributeError].  A [value_set] that returns has
    drained exactly ten slots. *)
Theorem read_limit_is_ten (dumps : store -> list byte)
    (loads : list byte -> option store) (fname : string) (md : mode)
    (io : io_fault) (fs : gmap string (list byte))
    (ns : gmap string kernel_object) (s : state) :
  SynchronizedDataBase.init loads fname md io fs ns = Return tt s →
  read_limit s = 10%nat ∧
  (md = "threads" ∨
   (md = "processes" ∧ ns !! "Global\ReadSemaphore" = None) →
   has_gates s = true ∧ read_semaphore s = Semaphore 10 10 ∧
   (∀ n, (n ≤ 10)%nat →
         ∃ sn, take_slots n s = Return tt sn ∧
               read_semaphore sn = Semaphore (10 - n) 10) ∧
   (∃ s10, take_slots 10 s = Return tt s10 ∧
           ∀ key io', ∃ sb,
             SynchronizedDataBase.value_get loads key io' s10 = Blocked sb)) ∧
  (md = "processes" →
   ∀ c, ns !! "Global\ReadSemaphore" = Some (KSemaphore c) →
        has_gates s = true ∧ read_semaphore s = c ∧
        ∀ n, (n ≤ sem_count c)%nat →
             ∃ sn, take_slots n s = Return tt sn ∧
                   read_semaphore sn =
                     Semaphore (sem_count c - n) (sem_max c)) ∧
  (md ≠ "threads" → md ≠ "processes" →
   has_gates s = false ∧
   ∀ key value io',
     SynchronizedDataBase.value_set dumps key value io' s =
       Raise (AttributeError "write_lock") s ∧
     SynchronizedDataBase.value_get loads key io' s =
       Raise (AttributeError "read_semaphore") s) ∧
  (∀ key value,
     gates_available 10 s →
     ∃ s', SynchronizedDataBase.value_set dumps key value NoFault s =
             Return (DataBase.set_value key value (data s)).1 s' ∧
           calls s' =
             calls s ++
             [CallWait WriteLock; CallWait Mutex] ++
             replicate 10 (CallWait ReadSemaphore) ++
             save_calls (filename s) (dumps (data s')) ++
             replicate 10 (CallReleaseSemaphore 1) ++
             [CallReleaseMutex Mutex; CallReleaseMutex WriteLock]).
Proof.
  intros H. apply init_inv in H as (H10 & Hfs & Hfn & Hgates).
  split; [ done | ]. split; [ | split; [ | split ] ].
  - intros Hmd.
    assert (Hg : has_gates s = true ∧ read_semaphore s = Semaphore 10 10).
    { destruct Hgates as [ (Hg & Hfound) | (_ & H1 & H2) ].
      - split; [ done | ]. unfold gates_found in Hfound.
        destruct Hmd as [ -> | (-> & Hnone) ].
        + simpl in Hfound. by injection Hfound.
        + simpl in Hfound. rewrite Hnone in Hfound. simpl in Hfound.
          destruct (mutex_at (ns !! "Global\DataMutex")); simpl in Hfound;
            [ | done ].
          destruct (mutex_at (ns !! "Global\WriteLock")); simpl in Hfound;
            [ | done ].
          by injection Hfound.
      - destruct Hmd as [ ? | (? & _) ]; done. }
    destruct Hg as (Hg & Hsem). split; [ done | ]. split; [ done | ].
    split.
    + intros n Hn. unfold take_slots.
      rewrite drain_returns by (rewrite Hsem; simpl; lia).
      eexists. split; [ reflexivity | ]. simpl. by rewrite Hsem.
    + unfold take_slots. rewrite drain_returns by (rewrite Hsem; simpl; lia).
      eexists. split; [ reflexivity | ]. intros key io'.
      rewrite value_get_blocks; [ eauto | by destruct s | ].
      simpl. by rewrite Hsem.
  - intros -> c Hc.
    destruct Hgates as [ (Hg & Hfound) | (_ & _ & H2) ]; [ | done ].
    split; [ done | ]. unfold gates_found in Hfound. simpl in Hfound.
    rewrite Hc in Hfound. simpl in Hfound.
    destruct (mutex_at (ns !! "Global\DataMutex")); simpl in Hfound;
      [ | done ].
    destruct (mutex_at (ns !! "Global\WriteLock")); simpl in Hfound;
      [ | done ].
    assert (Hs : read_semaphore s = c) by (by injection Hfound).
    split; [ done | ]. intros n Hn. unfold take_slots.
    rewrite drain_returns by (by rewrite Hs).
    eexists. split; [ reflexivity | ]. simpl. by rewrite Hs.
  - intros H1 H2.
    destruct Hgates as [ (_ & Hfound) | (Hg & _) ].
    + unfold gates_found in Hfound. by repeat case_decide.
    + split; [ done | ]. intros key value io'.
      by rewrite value_set_ungated, value_get_ungated.
  - intros key value Ha. rewrite <- H10 in Ha.
    rewrite value_set_returns by done. rewrite H10.
    eexists. split; reflexivity.
Qed.

Lemma read_limit_is_ten_witness :
  (read_limit fresh = 10%nat ∧
   has_gates fresh = true ∧ read_semaphore fresh = Semaphore 10 10 ∧
   (∀ n, (n ≤ 10)%nat →
         ∃ sn, take_slots n fresh = Return tt sn ∧
               read_semaphore sn = Semaphore (10 - n) 10) ∧
   (∃ s10, take_slots 10 fresh = Return tt s10 ∧
           ∀ key io', ∃ sb,
             SynchronizedDataBase.value_get Pickle.loads key io' s10
             = Blocked sb) ∧
   (∀ key value,
      ∃ s', SynchronizedDataBase.value_set Pickle.dumps key value NoFault
              fresh
            = Return (DataBase.set_value key value (data fresh)).1 s' ∧
            calls s' =
              calls fresh ++
              [CallWait WriteLock; CallWait Mutex] ++
              replicate 10 (CallWait ReadSemaphore) ++
              save_calls (filename fresh) (Pickle.dumps (data s')) ++
              replicate 10 (CallReleaseSemaphore 1) ++
              [CallReleaseMutex Mutex; CallReleaseMutex WriteLock])) ∧
  (∀ s, SynchronizedDataBase.init Pickle.loads "test.pkl" "processes" NoFault
          ∅ {["Global\ReadSemaphore" := KSemaphore (Semaphore 20 20)]}
        = Return tt s →
        read_limit s = 10%nat ∧ has_gates s = true ∧
        read_semaphore s = Semaphore 20 20 ∧
        ∃ sn, take_slots 11 s = Return tt sn ∧
              read_semaphore sn = Semaphore 9 20) ∧
  (∀ s, SynchronizedDataBase.init Pickle.loads "test.pkl" "thread" NoFault
          ∅ ∅ = Return tt s →
        read_limit s = 10%nat ∧ has_gates s = false ∧
        ∀ key value io',
          SynchronizedDataBase.value_set Pickle.dumps key value io' s =
            Raise (AttributeError "write_lock") s ∧
          SynchronizedDataBase.value_get Pickle.loads key io' s =
            Raise (AttributeError "read_semaphore") s).
Proof.
  split; [ | split ].
  - assert (E : SynchronizedDataBase.init Pickle.loads "test.pkl" "threads"
                  NoFault ∅ ∅ = Return tt fresh)
      by (vm_compute; reflexivity).
    destruct (read_limit_is_ten Pickle.dumps Pickle.loads "test.pkl"
                "threads" NoFault ∅ ∅ fresh E) as (H1 & H2 & _ & _ & H5).
    destruct (H2 (or_introl eq_refl)) as (H21 & H22 & H23 & H24).
    repeat (split; [ assumption | ]).
    intros key value. exact (H5 key value (fresh_gates_available ∅)).
  - intros s E.
    destruct (read_limit_is_ten Pickle.dumps Pickle.loads "test.pkl"
                "processes" NoFault ∅
                {["Global\ReadSemaphore" := KSemaphore (Semaphore 20 20)]}
                s E) as (H1 & _ & H3 & _).
    split; [ assumption | ].
    destruct (H3 eq_refl (Semaphore 20 20) (lookup_singleton_eq _ _))
      as (H31 & H32 & H33).
    split; [ assumption | ]. split; [ assumption | ].
    apply (H33 11%nat). simpl. lia.
  - intros s E.
    destruct (read_limit_is_ten Pickle.dumps Pickle.loads "test.pkl"
                "thread" NoFault ∅ ∅ s E) as (H1 & _ & _ & H4 & _).
    split; [ assumption | ].
    apply H4; discriminate.
Defined.

(** ** Deleting through the synchronized store *)

(** C1 at a failing input.  [value_delete] is no attribute of a
    [SynchronizedDataBase]; [delete] is the method of [DataBase].  After
    [value_set(0, 1)] on a fresh store, [delete(0)] empties the in-memory
    mapping without any call on a gate or on the file, so the snapshot still
    denotes the mapping that binds 0 to 1.  The module-level function
    [value_delete], applied to the store, takes the gates and raises with
    all of them held. *)
Theorem delete_skips_gates_and_save :
  resolve ClsSynchronizedDataBase "value_delete" = None ∧
  resolve ClsSynchronizedDataBase "delete" = Some ClsDataBase ∧
  ∃ s1 s2 s3,
    SynchronizedDataBase.value_set Pickle.dumps (KInt 0) (PyInt 1) NoFault
      fresh = Return true s1 ∧
    delete (KInt 0) s1 = Return (PyInt 1) s2 ∧
    data s2 = ∅ ∧
    calls s2 = calls s1 ∧
    files s2 = files s1 ∧
    snapshot Pickle.loads s2 = Some {[KInt 0 := PyInt 1]} ∧
    value_delete (KInt 0) s1 =
      Raise (RuntimeError "super(): __class__ cell not found") s3 ∧
    write_lock s3 = Owned 0 ∧ mutex s3 = Owned 0 ∧
    read_semaphore s3 = Semaphore 0 10.
Proof.
  split; [ vm_compute; reflexivity | ].
  split; [ vm_compute; reflexivity | ].
  apply delete_after_value_set, loads_dumps.
Qed.

(** * Further properties of the code *)

(** ** The in-memory store: how the operations compose *)

Lemma lookup_set_default (key : pykey) (value : pyobj) (d : store) :
  (DataBase.set_value key value d).2 !! key = Some (default value (d !! key)).
Proof.
  unfold DataBase.set_value.
  destruct (d !! key) as [ v0 | ] eqn:E; simpl.
  - done.
  - by rewrite lookup_insert_eq.
Qed.

Lemma set_value_again (key : pykey) (v1 v2 : pyobj) (d : store) :
  DataBase.set_value key v2 (DataBase.set_value key v1 d).2 =
  (false, (DataBase.set_value key v1 d).2).
Proof.
  unfold DataBase.set_value at 1. by rewrite lookup_set_default.
Qed.

Lemma get_set_default (key : pykey) (value : pyobj) (d : store) :
  DataBase.get_value key (DataBase.set_value key value d).2 =
  default value (d !! key).
Proof.
  unfold DataBase.get_value. by rewrite lookup_set_default.
Qed.

(** X1.  Reading a key right after [set_value] on it gives the value that
    was there before if there was one, and the new value otherwise: a
    value, once set, is never replaced by [set_value]. *)
Theorem get_after_set (key : pykey) (value : pyobj) (d : store) :
  DataBase.get_value key (DataBase.set_value key value d).2 =
  default value (d !! key).
Proof. apply get_set_default. Qed.

(** X2.  [set_value] and [delete] on one key leave every other key as it
    was: its binding, and so what [get_value] returns for it. *)
Theorem other_keys_untouched (key key' : pykey) (value : pyobj) (d : store) :
  key ≠ key' →
  (DataBase.set_value key value d).2 !! key' = d !! key' ∧
  (DataBase.delete key d).2 !! key' = d !! key' ∧
  DataBase.get_value key' (DataBase.set_value key value d).2 =
    DataBase.get_value key' d ∧
  DataBase.get_value key' (DataBase.delete key d).2 =
    DataBase.get_value key' d.
Proof.
  intros Hne.
  assert (H1 : (DataBase.set_value key value d).2 !! key' = d !! key').
  { unfold DataBase.set_value. destruct (d !! key); simpl;
      [ done | by rewrite lookup_insert_ne ]. }
  assert (H2 : (DataBase.delete key d).2 !! key' = d !! key').
  { unfold DataBase.delete. destruct (d !! key); simpl;
      [ by rewrite lookup_delete_ne | done ]. }
  repeat split; try done; unfold DataBase.get_value.
  - by rewrite H1.
  - by rewrite H2.
Qed.

Lemma other_keys_untouched_witness :
  (DataBase.set_value (KInt 0) (PyInt 5) {[KStr "a" := PyNone]}).2
    !! KStr "a" = ({[KStr "a" := PyNone]} : store) !! KStr "a" ∧
  (DataBase.delete (KInt 0) {[KStr "a" := PyNone]}).2 !! KStr "a" =
    ({[KStr "a" := PyNone]} : store) !! KStr "a" ∧
  DataBase.get_value (KStr "a")
    (DataBase.set_value (KInt 0) (PyInt 5) {[KStr "a" := PyNone]}).2 =
    DataBase.get_value (KStr "a") {[KStr "a" := PyNone]} ∧
  DataBase.get_value (KStr "a")
    (DataBase.delete (KInt 0) {[KStr "a" := PyNone]}).2 =
    DataBase.get_value (KStr "a") {[KStr "a" := PyNone]}.
Proof.
  exact (other_keys_untouched (KInt 0) (KStr "a") (PyInt 5)
           {[KStr "a" := PyNone]} ltac:(discriminate)).
Defined.

(** X3.  After [delete] the key reads as absent, and a second [delete] of
    it returns [None] and changes nothing. *)
Theorem delete_is_idempotent (key : pykey) (d : store) :
  DataBase.get_value key (DataBase.delete key d).2 = PyNone ∧
  DataBase.delete key (DataBase.delete key d).2 =
    (PyNone, (DataBase.delete key d).2).
Proof.
  assert (H : (DataBase.delete key d).2 !! key = None).
  { unfold DataBase.delete. destruct (d !! key) eqn:E; simpl;
      [ apply lookup_delete_eq | done ]. }
  unfold DataBase.get_value. rewrite H. split; [ done | ].
  unfold DataBase.delete at 1. by rewrite H.
Qed.

(** X4.  [delete] undoes a [set_value] that inserted: on a key that was
    absent, [set_value] then [delete] returns the value just set and gives
    back the mapping as it was.  The other way round, [delete] then
    [set_value] always inserts, so that the key ends bound to the new
    value whatever it was bound to. *)
Theorem delete_and_set_compose (key : pykey) (value : pyobj) (d : store) :
  (d !! key = None →
   DataBase.delete key (DataBase.set_value key value d).2 = (value, d)) ∧
  DataBase.set_value key value (DataBase.delete key d).2 =
    (true, <[key := value]> d).
Proof.
  split.
  - intros E. unfold DataBase.set_value. rewrite E. simpl.
    unfold DataBase.delete. rewrite lookup_insert_eq. simpl.
    by rewrite delete_insert_id.
  - assert (H : (DataBase.delete key d).2 !! key = None).
    { unfold DataBase.delete. destruct (d !! key) eqn:E; simpl;
        [ apply lookup_delete_eq | done ]. }
    unfold DataBase.set_value. rewrite H. f_equal.
    unfold DataBase.delete. destruct (d !! key) eqn:E; simpl.
    + apply insert_delete_eq.
    + done.
Qed.

Lemma delete_and_set_compose_witness :
  DataBase.delete (KInt 3) (DataBase.set_value (KInt 3) (PyStr "v") ∅).2 =
    (PyStr "v", ∅) ∧
  DataBase.set_value (KInt 3) (PyStr "v") (DataBase.delete (KInt 3) ∅).2 =
    (true, <[KInt 3 := PyStr "v"]> ∅).
Proof.
  split.
  - apply (proj1 (delete_and_set_compose (KInt 3) (PyStr "v") ∅)).
    reflexivity.
  - apply (proj2 (delete_and_set_compose (KInt 3) (PyStr "v") ∅)).
Defined.

(** ** [save] and [load]: failures and what they leave behind *)

Section PersistenceFailures.

Variable dumps : store -> list byte.
Variable loads : list byte -> option store.

Lemma save_write_fails (s : state) :
  file_mutex s ≠ OwnedElsewhere →
  SerializedDataBase.save dumps TransferFails s =
  Raise (ApiError "WriteFile")
    (set_files (<[filename s := []]> (files s))
       (logs (save_calls (filename s) (dumps (data s))) s)).
Proof.
  intros H. destruct s as [d f fm rl hg mu sem wl fs cs]. simpl in H.
  unfold SerializedDataBase.save, bind, set_files, logs, save_calls.
  destruct fm; try done; simpl; rewrite <- !app_assoc; done.
Qed.

Lemma save_create_fails (s : state) :
  file_mutex s ≠ OwnedElsewhere →
  SerializedDataBase.save dumps CreateFileFails s =
  Raise (ApiError "CloseHandle")
    (set_mutex FileMutex (acquired (file_mutex s))
       (logs [CallWait FileMutex; CallCreateFile (filename s) GENERIC_WRITE;
              CallCloseHandle None] s)).
Proof.
  intros H. destruct s as [d f fm rl hg mu sem wl fs cs]. simpl in H.
  unfold SerializedDataBase.save, bind, set_files, logs.
  destruct fm; try done; simpl; unfold log; simpl;
    rewrite <- !app_assoc; done.
Qed.

Lemma load_corrupt (s : state) (bytes : list byte) :
  files s !! filename s = Some bytes → loads bytes = None →
  file_mutex s ≠ OwnedElsewhere →
  SerializedDataBase.load loads NoFault s =
  Raise UnpicklingError
    (logs [CallWait FileMutex; CallCreateFile (filename s) GENERIC_READ;
           CallReadFile (filename s) (length bytes);
           CallReleaseMutex FileMutex] s).
Proof.
  intros Hf Hd H. destruct s as [d0 f fm rl hg mu sem wl fs cs]. simpl in *.
  unfold SerializedDataBase.load, try_finally, bind, logs.
  unfold SerializedDataBase.load_try.
  destruct fm; try done; simpl; rewrite Hf;
    unfold bind, getsize, SerializedDataBase.pickle_loads; simpl;
    repeat (first [ rewrite Hf | rewrite firstn_all | rewrite Hd ]; simpl);
    rewrite <- !app_assoc; done.
Qed.

Lemma load_keeps_files (io : io_fault) (s : state) :
  files (outcome_state (SerializedDataBase.load loads io s)) = files s.
Proof.
  destruct s as [d0 f fm rl hg mu sem wl fs cs].
  unfold SerializedDataBase.load, try_finally, bind.
  unfold SerializedDataBase.load_try.
  destruct fm; simpl; try done;
    destruct (fs !! f) as [ bytes | ] eqn:Hf; simpl; try done;
    destruct io; simpl; rewrite ?Hf; simpl; try done;
    unfold bind, getsize, SerializedDataBase.pickle_loads; simpl;
    rewrite ?Hf; simpl;
    try (match goal with |- context [ loads ?b ] => destruct (loads b) end);
    simpl; done.
Qed.

End PersistenceFailures.

(** X5.  A [save] whose [WriteFile] fails has already truncated the file:
    the error reaches the caller, the previous snapshot is gone and the
    file is empty.  The in-memory mapping is untouched and the file mutex
    is released. *)
Theorem failed_write_truncates_snapshot (dumps : store -> list byte)
    (s : state) :
  file_mutex s ≠ OwnedElsewhere →
  ∃ s', SerializedDataBase.save dumps TransferFails s =
          Raise (ApiError "WriteFile") s' ∧
        files s' !! filename s = Some [] ∧
        data s' = data s ∧ file_mutex s' = file_mutex s.
Proof.
  intros H. rewrite save_write_fails by done.
  eexists. split; [ reflexivity | ]. simpl.
  by rewrite lookup_insert_eq.
Qed.

Lemma failed_write_truncates_snapshot_witness :
  ∃ s', SerializedDataBase.save Pickle.dumps TransferFails
          (with_snapshot {[KInt 0 := PyInt 1]} fresh) =
          Raise (ApiError "WriteFile") s' ∧
        files s' !! filename (with_snapshot {[KInt 0 := PyInt 1]} fresh)
          = Some [] ∧
        data s' = data (with_snapshot {[KInt 0 := PyInt 1]} fresh) ∧
        file_mutex s' =
          file_mutex (with_snapshot {[KInt 0 := PyInt 1]} fresh).
Proof.
  exact (failed_write_truncates_snapshot Pickle.dumps
           (with_snapshot {[KInt 0 := PyInt 1]} fresh) ltac:(discriminate)).
Defined.

(** X6.  A [save] whose [CreateFile] fails leaves the files as they were,
    but its [finally] clause calls [CloseHandle] on the [None] that
    [handle] still is: that call raises, its error replaces the one of
    [CreateFile], and [ReleaseMutex] is never reached, so the file mutex
    stays held by the caller. *)
Theorem failed_create_keeps_file_mutex (dumps : store -> list byte)
    (s : state) :
  file_mutex s ≠ OwnedElsewhere →
  ∃ s', SerializedDataBase.save dumps CreateFileFails s =
          Raise (ApiError "CloseHandle") s' ∧
        files s' = files s ∧ data s' = data s ∧
        file_mutex s' = acquired (file_mutex s) ∧
        CallReleaseMutex FileMutex ∉ drop (length (calls s)) (calls s').
Proof.
  intros H. rewrite save_create_fails by done.
  eexists. split; [ reflexivity | ].
  destruct s as [d f fm rl hg mu sem wl fs cs]. simpl.
  repeat split. rewrite drop_app_length. intros Hin.
  repeat (apply elem_of_cons in Hin as [ Hin | Hin ]; [ discriminate | ]).
  by apply elem_of_nil in Hin.
Qed.

Lemma failed_create_keeps_file_mutex_witness :
  ∃ s', SerializedDataBase.save Pickle.dumps CreateFileFails fresh =
          Raise (ApiError "CloseHandle") s' ∧
        files s' = files fresh ∧ data s' = data fresh ∧
        file_mutex s' = acquired (file_mutex fresh) ∧
        CallReleaseMutex FileMutex
          ∉ drop (length (calls fresh)) (calls s').
Proof.
  exact (failed_create_keeps_file_mutex Pickle.dumps fresh
           ltac:(discriminate)).
Defined.

(** X7.  [load] of a file whose bytes are not a pickle raises; it does not
    fall back to the empty mapping: the in-memory mapping is the one from
    before the call.  The file mutex is released. *)
Theorem corrupt_snapshot_raises (loads : list byte -> option store)
    (s : state) (bytes : list byte) :
  files s !! filename s = Some bytes → loads bytes = None →
  file_mutex s ≠ OwnedElsewhere →
  ∃ s', SerializedDataBase.load loads NoFault s = Raise UnpicklingError s' ∧
        data s' = data s ∧ files s' = files s ∧
        file_mutex s' = file_mutex s.
Proof.
  intros Hf Hd H. erewrite load_corrupt by done.
  eexists. split; [ reflexivity | ].
  destruct s as [d f fm rl hg mu sem wl fs cs]. simpl. done.
Qed.

Lemma corrupt_snapshot_raises_witness :
  ∃ s', SerializedDataBase.load Pickle.loads NoFault
          (set_files {["test.pkl" := [x00]]}
             (set_data {[KInt 0 := PyInt 1]} fresh)) =
          Raise UnpicklingError s' ∧
        data s' = {[KInt 0 := PyInt 1]} ∧
        files s' = {["test.pkl" := [x00]]} ∧
        file_mutex s' = Unowned.
Proof.
  refine (corrupt_snapshot_raises Pickle.loads
            (set_files {["test.pkl" := [x00]]}
               (set_data {[KInt 0 := PyInt 1]} fresh)) [x00] _ _ _).
  - vm_compute. reflexivity.
  - reflexivity.
  - discriminate.
Defined.

(** X8.  [load] never writes: whatever the file system does and however the
    call ends, the files are as they were before it. *)
Theorem load_never_writes (loads : list byte -> option store)
    (io : io_fault) (s : state) :
  files (outcome_state (SerializedDataBase.load loads io s)) = files s.
Proof. apply load_keeps_files. Qed.

(** ** Construction: the file and the kernel namespace it starts from *)

Section Construction.

Variable loads : list byte -> option store.

Local Arguments SerializedDataBase.load : simpl never.

Lemma init_corrupt (fname : string) (md : mode)
    (fs : gmap string (list byte)) (ns : gmap string kernel_object)
    (bytes : list byte) :
  fs !! fname = Some bytes → loads bytes = None →
  ∃ s', SynchronizedDataBase.init loads fname md NoFault fs ns =
          Raise UnpicklingError s' ∧ files s' = fs.
Proof.
  intros Hf Hd.
  unfold SynchronizedDataBase.init, bind. simpl.
  erewrite load_corrupt by done. simpl. eauto.
Qed.

End Construction.

Lemma gates_free_available (md : mode) (ns : gmap string kernel_object)
    (s : state) :
  gates_free md ns →
  read_limit s = 10%nat → file_mutex s = Unowned →
  match gates_found md ns with
  | Some (m, c, w) =>
      has_gates s = true ∧ mutex s = m ∧ read_semaphore s = c ∧
      write_lock s = w
  | None => has_gates s = false
  end →
  gates_available (read_limit s) s.
Proof.
  intros (m & c & w & -> & Hm & Hw & Hn & Hmax) -> Hf (Hg & <- & <- & <-).
  unfold gates_available. rewrite Hf. done.
Qed.

Lemma slot_free_available (md : mode) (ns : gmap string kernel_object)
    (s : state) :
  slot_free md ns →
  file_mutex s = Unowned →
  match gates_found md ns with
  | Some (m, c, w) =>
      has_gates s = true ∧ mutex s = m ∧ read_semaphore s = c ∧
      write_lock s = w
  | None => has_gates s = false
  end →
  slot_available s.
Proof.
  intros (m & c & w & -> & Hn & Hmax) Hf (Hg & <- & <- & <-).
  unfold slot_available. rewrite Hf. done.
Qed.

Lemma gates_free_succeeds (md : mode) (ns : gmap string kernel_object) :
  gates_free md ns → creation_succeeds md ns.
Proof. intros (m & c & w & H & _) _. by rewrite H. Qed.

Lemma slot_free_succeeds (md : mode) (ns : gmap string kernel_object) :
  slot_free md ns → creation_succeeds md ns.
Proof. intros (m & c & w & H & _) _. by rewrite H. Qed.

(** X9.  Constructing a store on a file that does not exist gives an empty
    store under every behaviour of the file system and does not create the
    file; this holds for every mode string, provided no create call of the
    constructor fails (in mode ['processes'] none of the three global names
    is taken by an object of the other kind).  If the gates the construction
    creates or adopts are free for a writer (neither mutex owned elsewhere,
    at least ten slots of the semaphore free, its count within its
    maximum), the first [value_set] then creates the file, holding the
    pickle of exactly that one entry.  With a mode string other than
    ['threads'] and ['processes'] the first [value_set] raises
    [AttributeError] instead and the file is still not created. *)
Theorem absent_file_startup (dumps : store -> list byte)
    (loads : list byte -> option store) (fname : string) (md : mode)
    (io : io_fault) (fs : gmap string (list byte))
    (ns : gmap string kernel_object) (key : pykey) (value : pyobj) :
  fs !! fname = None →
  (creation_succeeds md ns →
   ∃ s, SynchronizedDataBase.init loads fname md io fs ns = Return tt s ∧
        data s = ∅ ∧ files s = fs) ∧
  (gates_free md ns →
   ∃ s s',
     SynchronizedDataBase.init loads fname md io fs ns = Return tt s ∧
     data s = ∅ ∧ files s = fs ∧
     SynchronizedDataBase.value_set dumps key value NoFault s =
       Return true s' ∧
     data s' = {[key := value]} ∧
     files s' = <[fname := dumps {[key := value]}]> fs) ∧
  (md ≠ "threads" → md ≠ "processes" →
   ∃ s,
     SynchronizedDataBase.init loads fname md io fs ns = Return tt s ∧
     data s = ∅ ∧ files s = fs ∧
     ∀ io', SynchronizedDataBase.value_set dumps key value io' s =
            Raise (AttributeError "write_lock") s).
Proof.
  intros Hf.
  assert (Hd : match fs !! fname with
               | Some bytes => loads bytes = Some (∅ : store) ∧ io = NoFault
               | None => (∅ : store) = ∅
               end) by (by rewrite Hf).
  split; [ | split ].
  - intros Hc.
    destruct (init_returns loads fname md io fs ns ∅ Hd Hc)
      as (s & -> & Hdata & Hfiles & _).
    eauto.
  - intros Hfree.
    destruct (init_returns loads fname md io fs ns ∅ Hd
                (gates_free_succeeds md ns Hfree))
      as (s & -> & Hdata & Hfiles & Hname & Hrl & Hfm & Hg).
    pose proof (gates_free_available md ns s Hfree Hrl Hfm Hg) as Ha.
    eexists s, _. split; [ reflexivity | ].
    split; [ done | ]. split; [ done | ].
    rewrite value_set_returns by done.
    rewrite Hdata, Hfiles, Hname.
    unfold DataBase.set_value. rewrite lookup_empty. simpl.
    split; [ reflexivity | ]. simpl. done.
  - intros H1 H2.
    destruct (init_ungated loads fname md io fs ns ∅ Hd H1 H2)
      as (s & -> & Hg & Hdata & Hfiles & _).
    eexists. split; [ reflexivity | ].
    split; [ done | ]. split; [ done | ].
    intros io'. by rewrite value_set_ungated.
Qed.

Lemma absent_file_startup_witness :
  (∃ s s',
     SynchronizedDataBase.init Pickle.loads "test.pkl" "processes"
       CreateFileFails ∅
       {["Global\ReadSemaphore" := KSemaphore (Semaphore 12 20)]}
       = Return tt s ∧
     data s = ∅ ∧ files s = ∅ ∧
     SynchronizedDataBase.value_set Pickle.dumps (KInt 0) (PyInt 1) NoFault s =
       Return true s' ∧
     data s' = {[KInt 0 := PyInt 1]} ∧
     files s' = <["test.pkl" := Pickle.dumps {[KInt 0 := PyInt 1]}]> ∅) ∧
  (∃ s,
     SynchronizedDataBase.init Pickle.loads "test.pkl" "thread"
       CreateFileFails ∅ ∅ = Return tt s ∧
     data s = ∅ ∧ files s = ∅ ∧
     ∀ io', SynchronizedDataBase.value_set Pickle.dumps (KInt 0) (PyInt 1)
              io' s = Raise (AttributeError "write_lock") s).
Proof.
  split.
  - refine (proj1 (proj2 (absent_file_startup Pickle.dumps Pickle.loads
                            "test.pkl" "processes" CreateFileFails ∅
                            {["Global\ReadSemaphore" :=
                                KSemaphore (Semaphore 12 20)]}
                            (KInt 0) (PyInt 1) _)) _).
    + reflexivity.
    + exists Unowned, (Semaphore 12 20), Unowned.
      split; [ vm_compute; reflexivity | ].
      repeat split; (discriminate || simpl; lia).
  - refine (proj2 (proj2 (absent_file_startup Pickle.dumps Pickle.loads
                            "test.pkl" "thread" CreateFileFails ∅ ∅
                            (KInt 0) (PyInt 1) _)) _ _).
    + reflexivity.
    + discriminate.
    + discriminate.
Defined.

(** X10.  Constructing a store on a file that holds a pickle, with no
    failure of the file system, starts it with the mapping the file
    denotes, leaves the file as it is and sets the read limit to 10.  This
    holds for every mode string, provided no create call of the constructor
    fails (in mode ['processes'] none of the three global names is taken by
    an object of the other kind); whether the gates are created or
    adopted, or absent, makes no difference to it. *)
Theorem construction_loads_snapshot (loads : list byte -> option store)
    (fname : string) (md : mode) (fs : gmap string (list byte))
    (ns : gmap string kernel_object) (bytes : list byte) (d : store) :
  fs !! fname = Some bytes → loads bytes = Some d →
  creation_succeeds md ns →
  ∃ s, SynchronizedDataBase.init loads fname md NoFault fs ns = Return tt s ∧
       data s = d ∧ files s = fs ∧ read_limit s = 10%nat.
Proof.
  intros Hf Hd Hc.
  assert (Hdisk : match fs !! fname with
                  | Some bytes => loads bytes = Some d ∧ NoFault = NoFault
                  | None => d = ∅
                  end) by (by rewrite Hf).
  destruct (init_returns loads fname md NoFault fs ns d Hdisk Hc)
    as (s & -> & ? & ? & ? & ? & _).
  eauto.
Qed.

Lemma construction_loads_snapshot_witness :
  (∃ s, SynchronizedDataBase.init Pickle.loads "test.pkl" "processes" NoFault
          {["test.pkl" := Pickle.dumps {[KInt 0 := PyList [PyNone]]}]}
          {["Global\ReadSemaphore" := KSemaphore (Semaphore 3 20)]} =
          Return tt s ∧
        data s = {[KInt 0 := PyList [PyNone]]} ∧
        files s =
          {["test.pkl" := Pickle.dumps {[KInt 0 := PyList [PyNone]]}]} ∧
        read_limit s = 10%nat) ∧
  (∃ s, SynchronizedDataBase.init Pickle.loads "test.pkl" "thread" NoFault
          {["test.pkl" := Pickle.dumps {[KInt 0 := PyList [PyNone]]}]} ∅ =
          Return tt s ∧
        data s = {[KInt 0 := PyList [PyNone]]} ∧
        files s =
          {["test.pkl" := Pickle.dumps {[KInt 0 := PyList [PyNone]]}]} ∧
        read_limit s = 10%nat).
Proof.
  split.
  - refine (construction_loads_snapshot Pickle.loads "test.pkl" "processes"
              {["test.pkl" := Pickle.dumps {[KInt 0 := PyList [PyNone]]}]}
              {["Global\ReadSemaphore" := KSemaphore (Semaphore 3 20)]}
              (Pickle.dumps {[KInt 0 := PyList [PyNone]]})
              {[KInt 0 := PyList [PyNone]]} _ _ _).
    + apply lookup_singleton_eq.
    + apply loads_dumps.
    + intros _. vm_compute. eauto.
  - refine (construction_loads_snapshot Pickle.loads "test.pkl" "thread"
              {["test.pkl" := Pickle.dumps {[KInt 0 := PyList [PyNone]]}]} ∅
              (Pickle.dumps {[KInt 0 := PyList [PyNone]]})
              {[KInt 0 := PyList [PyNone]]} _ _ _).
    + apply lookup_singleton_eq.
    + apply loads_dumps.
    + discriminate.
Defined.

(** X11.  Constructing a store on a file whose bytes are not a pickle
    raises: no store is built, in either mode, and the file is left as it
    is. *)
Theorem construction_fails_on_corrupt_snapshot
    (loads : list byte -> option store) (fname : string) (md : mode)
    (fs : gmap string (list byte)) (ns : gmap string kernel_object)
    (bytes : list byte) :
  fs !! fname = Some bytes → loads bytes = None →
  ∃ s', SynchronizedDataBase.init loads fname md NoFault fs ns =
          Raise UnpicklingError s' ∧ files s' = fs.
Proof. apply init_corrupt. Qed.

Lemma construction_fails_on_corrupt_snapshot_witness :
  ∃ s', SynchronizedDataBase.init Pickle.loads "test.pkl" "processes" NoFault
          {["test.pkl" := [x00]]} ∅ = Raise UnpicklingError s' ∧
        files s' = {["test.pkl" := [x00]]}.
Proof.
  refine (construction_fails_on_corrupt_snapshot Pickle.loads "test.pkl"
            "processes" {["test.pkl" := [x00]]} ∅ [x00] _ _).
  - apply lookup_singleton_eq.
  - reflexivity.
Defined.

(** X12.  In mode ['processes'] the three gates are the kernel objects of
    the three global names when these exist: whenever the constructor's
    [load] succeeds (the file is missing, or it holds a pickle and the file
    system does not fail), construction returns a store that sees the
    current state of those objects, slots taken by others included; the
    counts it passes to [CreateSemaphore] have no effect, its read limit is
    10 all the same, and its mapping is the one the file denotes (empty for
    a missing file). *)
Theorem processes_mode_adopts_existing_gates
    (loads : list byte -> option store) (fname : string) (io : io_fault)
    (fs : gmap string (list byte)) (ns : gmap string kernel_object)
    (d : store) (m w : mutex_state) (c : semaphore_state) :
  match fs !! fname with
  | Some bytes => loads bytes = Some d ∧ io = NoFault
  | None => d = ∅
  end →
  ns !! "Global\DataMutex" = Some (KMutex m) →
  ns !! "Global\ReadSemaphore" = Some (KSemaphore c) →
  ns !! "Global\WriteLock" = Some (KMutex w) →
  ∃ s, SynchronizedDataBase.init loads fname "processes" io fs ns
         = Return tt s ∧
       mutex s = m ∧ read_semaphore s = c ∧ write_lock s = w ∧
       file_mutex s = Unowned ∧ read_limit s = 10%nat ∧
       data s = d ∧ files s = fs.
Proof.
  intros Hd H1 H2 H3.
  assert (Hg : gates_found "processes" ns = Some (m, c, w)).
  { unfold gates_found. simpl. rewrite H1, H2, H3. reflexivity. }
  destruct (init_gated loads fname "processes" io fs ns d m w c Hd Hg)
    as (cs & ->).
  eexists. split; [ reflexivity | ]. done.
Qed.

Lemma processes_mode_adopts_existing_gates_witness :
  (∃ s, SynchronizedDataBase.init Pickle.loads "test.pkl" "processes"
          NoFault {["test.pkl" := Pickle.dumps {[KInt 0 := PyInt 1]}]}
          (<["Global\DataMutex" := KMutex Unowned]>
             (<["Global\ReadSemaphore" := KSemaphore (Semaphore 7 10)]>
                (<["Global\WriteLock" := KMutex OwnedElsewhere]> ∅)))
          = Return tt s ∧
        mutex s = Unowned ∧ read_semaphore s = Semaphore 7 10 ∧
        write_lock s = OwnedElsewhere ∧
        file_mutex s = Unowned ∧ read_limit s = 10%nat ∧
        data s = {[KInt 0 := PyInt 1]} ∧
        files s = {["test.pkl" := Pickle.dumps {[KInt 0 := PyInt 1]}]}) ∧
  (∃ s, SynchronizedDataBase.init Pickle.loads "test.pkl" "processes"
          TransferFails ∅
          (<["Global\DataMutex" := KMutex Unowned]>
             (<["Global\ReadSemaphore" := KSemaphore (Semaphore 20 20)]>
                (<["Global\WriteLock" := KMutex Unowned]> ∅)))
          = Return tt s ∧
        mutex s = Unowned ∧ read_semaphore s = Semaphore 20 20 ∧
        write_lock s = Unowned ∧
        file_mutex s = Unowned ∧ read_limit s = 10%nat ∧
        data s = ∅ ∧ files s = ∅).
Proof.
  split.
  - refine (processes_mode_adopts_existing_gates Pickle.loads "test.pkl"
              NoFault {["test.pkl" := Pickle.dumps {[KInt 0 := PyInt 1]}]} _
              {[KInt 0 := PyInt 1]} Unowned OwnedElsewhere (Semaphore 7 10)
              _ _ _ _).
    + rewrite lookup_singleton_eq. split; [ apply loads_dumps | done ].
    + vm_compute. reflexivity.
    + vm_compute. reflexivity.
    + vm_compute. reflexivity.
  - refine (processes_mode_adopts_existing_gates Pickle.loads "test.pkl"
              TransferFails ∅ _ ∅ Unowned Unowned (Semaphore 20 20)
              _ _ _ _).
    + reflexivity.
    + vm_compute. reflexivity.
    + vm_compute. reflexivity.
    + vm_compute. reflexivity.
Defined.

(** ** [value_set] and [value_get]: composition, staleness, waiting *)

Section SynchronizedMore.

Variable dumps : store -> list byte.
Variable loads : list byte -> option store.

Local Arguments WaitForSingleObject : simpl never.
Local Arguments ReleaseMutex : simpl never.
Local Arguments for_range : simpl never.
Local Arguments SerializedDataBase.save : simpl never.
Local Arguments SerializedDataBase.load : simpl never.

Lemma value_get_keeps_files (key : pykey) (io : io_fault) (s : state) :
  files (outcome_state (SynchronizedDataBase.value_get loads key io s)) =
  files s.
Proof.
  destruct (has_gates s) eqn:Hg; [ | by rewrite value_get_ungated ].
  rewrite value_get_gated by done. unfold Gated.value_get, bind.
  destruct (WaitForSingleObject ReadSemaphore s) as [ [] s1 | e s1 | s1 ]
    eqn:E1.
  - assert (F1 : files s1 = files s).
    { destruct s as [d f fm rl hg mu [c mx] wl fs cs].
      unfold WaitForSingleObject in E1. simpl in E1.
      destruct c; simplify_eq. done. }
    pose proof (load_keeps_files loads io s1) as F2.
    destruct (SerializedDataBase.load loads io s1) as [ [] s2 | e s2 | s2 ];
      simpl in *; try congruence.
    unfold get_value, ReleaseSemaphore. simpl.
    destruct (decide _); simpl; congruence.
  - destruct s as [d f fm rl hg mu [c mx] wl fs cs].
    unfold WaitForSingleObject in E1. simpl in E1. destruct c; discriminate.
  - destruct s as [d f fm rl hg mu [c mx] wl fs cs].
    unfold WaitForSingleObject in E1. simpl in E1.
    destruct c; simplify_eq. done.
Qed.

End SynchronizedMore.

Section SynchronizedFailures.

Variable dumps : store -> list byte.
Variable loads : list byte -> option store.

Local Arguments WaitForSingleObject : simpl never.
Local Arguments ReleaseMutex : simpl never.
Local Arguments for_range : simpl never.
Local Arguments SerializedDataBase.save : simpl never.
Local Arguments SerializedDataBase.load : simpl never.

Lemma value_set_raises_full (key : pykey) (value : pyobj) (io : io_fault)
    (s : state) :
  io ≠ NoFault → gates_available (read_limit s) s →
  ∃ e s', SynchronizedDataBase.value_set dumps key value io s = Raise e s' ∧
          has_gates s' = true ∧
          read_limit s' = read_limit s ∧
          write_lock s' = acquired (write_lock s) ∧
          mutex s' = acquired (mutex s) ∧
          read_semaphore s' = drained (read_limit s) (read_semaphore s).
Proof.
  intros Hio (Hg & Hw & Hm & Hf & Hn & Hmax).
  destruct s as [d f fm rl hg mu [c mx] wl fs cs]. simpl in *. subst hg.
  rewrite value_set_gated by done. unfold Gated.value_set, bind.
  rewrite wait_mutex_returns by done. simpl.
  rewrite wait_mutex_returns by done. simpl.
  rewrite drain_returns by done. simpl.
  unfold set_value. simpl.
  destruct (DataBase.set_value key value d) as [result d'] eqn:E. simpl.
  match goal with
  | |- context [ SerializedDataBase.save dumps io ?s0 ] =>
      pose proof (save_keeps_gates dumps io s0) as Hk;
      destruct (save_raises dumps io s0 Hio Hf)
        as (e & s' & Hs & _ & Hrl & Hwl & Hmu & Hsem);
      rewrite Hs in Hk |- *
  end.
  exists e, s'. simpl in *. by rewrite Hk, Hrl, Hwl, Hmu, Hsem.
Qed.

Lemma value_get_raises_full (key : pykey) (io : io_fault) (s : state) :
  load_fails loads io s → slot_available s →
  ∃ e s', SynchronizedDataBase.value_get loads key io s = Raise e s' ∧
          has_gates s' = true ∧
          read_limit s' = read_limit s ∧
          write_lock s' = write_lock s ∧ mutex s' = mutex s ∧
          read_semaphore s' = drained 1 (read_semaphore s).
Proof.
  intros (bytes & Hb & Hbad) (Hg & Hf & Hn & Hmax).
  destruct s as [d0 f fm rl hg mu [c mx] wl fs cs]. simpl in *. subst hg.
  rewrite value_get_gated by done. unfold Gated.value_get, bind.
  unfold WaitForSingleObject at 1. simpl.
  destruct c as [ | c ]; [ lia | ]. simpl.
  unfold SerializedDataBase.load, try_finally, bind, drained.
  unfold SerializedDataBase.load_try, WaitForSingleObject, ReleaseMutex.
  destruct io, fm; try done; simpl; rewrite Hb;
    unfold bind, getsize, SerializedDataBase.pickle_loads; simpl;
    repeat (first [ rewrite Hb | rewrite firstn_all ]; simpl);
    try (destruct Hbad as [ ? | Hl ]; [ done | ]; rewrite Hl);
    simpl; rewrite ?Nat.sub_0_r; eauto 10.
Qed.

End SynchronizedFailures.

(** X13.  [value_get] answers from the snapshot alone: it returns what
    [get_value] finds in the mapping the file denotes, whatever is in
    memory, and leaves that mapping in memory, so that changes made in
    memory and never saved are dropped.  The file and the gates are as
    before. *)
Theorem value_get_reads_snapshot_only (loads : list byte -> option store)
    (key : pykey) (s : state) (d : store) :
  snapshot loads s = Some d → slot_available s →
  ∃ s', SynchronizedDataBase.value_get loads key NoFault s =
          Return (DataBase.get_value key d) s' ∧
        data s' = d ∧ files s' = files s ∧
        gates_released s s' ∧ file_mutex s' = file_mutex s.
Proof.
  intros Hd Ha. rewrite (value_get_returns loads key s d) by done.
  eexists. split; [ reflexivity | ]. unfold gates_released. done.
Qed.

Lemma value_get_reads_snapshot_only_witness :
  ∃ s', SynchronizedDataBase.value_get Pickle.loads (KInt 0) NoFault
          (set_data {[KInt 0 := PyInt 1]} fresh) =
          Return (DataBase.get_value (KInt 0) ∅) s' ∧
        data s' = ∅ ∧
        files s' = files (set_data {[KInt 0 := PyInt 1]} fresh) ∧
        gates_released (set_data {[KInt 0 := PyInt 1]} fresh) s' ∧
        file_mutex s' = file_mutex (set_data {[KInt 0 := PyInt 1]} fresh).
Proof.
  refine (value_get_reads_snapshot_only Pickle.loads (KInt 0)
            (set_data {[KInt 0 := PyInt 1]} fresh) ∅ _ _).
  - reflexivity.
  - unfold slot_available. simpl. repeat split; (done || lia).
Defined.

(** X14.  [value_get] never writes: whatever the file system does and
    however the call ends (a value, an error, a wait), the files are as
    they were before it. *)
Theorem value_get_never_writes (loads : list byte -> option store)
    (key : pykey) (io : io_fault) (s : state) :
  files (outcome_state (SynchronizedDataBase.value_get loads key io s)) =
  files s.
Proof. apply value_get_keeps_files. Qed.

(** X15.  What [value_set] stores, [value_get] reads back through the file:
    after [value_set(key, value)], [value_get(key)] returns [value] when
    the key was absent from memory, and the value it was bound to
    otherwise. *)
Theorem value_get_after_value_set (dumps : store -> list byte)
    (loads : list byte -> option store) (key : pykey) (value : pyobj)
    (s : state) :
  gates_available (read_limit s) s →
  (0 < sem_count (read_semaphore s))%nat →
  loads (dumps (DataBase.set_value key value (data s)).2) =
    Some (DataBase.set_value key value (data s)).2 →
  ∃ s1 s2,
    SynchronizedDataBase.value_set dumps key value NoFault s =
      Return (DataBase.set_value key value (data s)).1 s1 ∧
    SynchronizedDataBase.value_get loads key NoFault s1 =
      Return (default value (data s !! key)) s2.
Proof.
  intros Ha Hpos Hrt. rewrite value_set_returns by done.
  eexists _, _. split; [ reflexivity | ].
  destruct Ha as (Hg & Hw & Hm & Hf & Hn & Hmax).
  erewrite value_get_returns.
  - rewrite get_set_default. reflexivity.
  - unfold snapshot. simpl. rewrite lookup_insert_eq. exact Hrt.
  - unfold slot_available. simpl. done.
Qed.

Lemma value_get_after_value_set_witness :
  ∃ s1 s2,
    SynchronizedDataBase.value_set Pickle.dumps (KInt 0) (PyInt 1) NoFault
      fresh =
      Return (DataBase.set_value (KInt 0) (PyInt 1) (data fresh)).1 s1 ∧
    SynchronizedDataBase.value_get Pickle.loads (KInt 0) NoFault s1 =
      Return (default (PyInt 1) (data fresh !! KInt 0)) s2.
Proof.
  refine (value_get_after_value_set Pickle.dumps Pickle.loads (KInt 0)
            (PyInt 1) fresh (fresh_gates_available ∅) _ (loads_dumps _)).
  simpl. lia.
Defined.

(** X16.  [value_set] trusts the memory of its instance, not the snapshot:
    for a key absent from memory it returns [True] and the snapshot becomes
    the pickle of the in-memory mapping with the pair added, whatever the
    file held.  A binding of the same key in the old snapshot, and every
    key that only the old snapshot knew, are gone. *)
Theorem value_set_trusts_memory_not_snapshot (dumps : store -> list byte)
    (loads : list byte -> option store) (key : pykey) (value : pyobj)
    (s : state) :
  data s !! key = None →
  gates_available (read_limit s) s →
  loads (dumps (<[key := value]> (data s))) =
    Some (<[key := value]> (data s)) →
  ∃ s', SynchronizedDataBase.value_set dumps key value NoFault s =
          Return true s' ∧
        snapshot loads s' = Some (<[key := value]> (data s)).
Proof.
  intros Hk Ha Hrt. rewrite value_set_returns by done.
  unfold DataBase.set_value. rewrite Hk. simpl.
  eexists. split; [ reflexivity | ].
  unfold snapshot. simpl. by rewrite lookup_insert_eq.
Qed.

Lemma value_set_trusts_memory_not_snapshot_witness :
  ∃ s', SynchronizedDataBase.value_set Pickle.dumps (KInt 0) (PyInt 1)
          NoFault
          (with_snapshot {[KInt 0 := PyInt 7; KInt 5 := PyInt 9]} fresh) =
          Return true s' ∧
        snapshot Pickle.loads s' =
          Some (<[KInt 0 := PyInt 1]>
                  (data (with_snapshot {[KInt 0 := PyInt 7; KInt 5 := PyInt 9]}
                           fresh))).
Proof.
  refine (value_set_trusts_memory_not_snapshot Pickle.dumps Pickle.loads
            (KInt 0) (PyInt 1)
            (with_snapshot {[KInt 0 := PyInt 7; KInt 5 := PyInt 9]} fresh)
            _ _ (loads_dumps _)).
  - reflexivity.
  - unfold gates_available. simpl. repeat split; (done || lia).
Defined.

(** X17.  The first [value_set] on a key wins: a second [value_set] on the
    same key returns [False] and changes neither the in-memory mapping nor
    the files; the key stays bound to what it was bound to after the first
    call. *)
Theorem second_value_set_is_refused (dumps : store -> list byte)
    (key : pykey) (v1 v2 : pyobj) (s : state) :
  gates_available (read_limit s) s →
  ∃ s1 s2,
    SynchronizedDataBase.value_set dumps key v1 NoFault s =
      Return (DataBase.set_value key v1 (data s)).1 s1 ∧
    SynchronizedDataBase.value_set dumps key v2 NoFault s1 =
      Return false s2 ∧
    data s2 = data s1 ∧ files s2 = files s1 ∧
    data s2 !! key = Some (default v1 (data s !! key)).
Proof.
  intros Ha. rewrite value_set_returns by done.
  eexists _, _. split; [ reflexivity | ].
  rewrite value_set_returns by exact Ha. simpl.
  rewrite !set_value_again. simpl.
  split; [ reflexivity | ]. simpl. rewrite insert_insert_eq.
  rewrite lookup_set_default. done.
Qed.

Lemma second_value_set_is_refused_witness :
  ∃ s1 s2,
    SynchronizedDataBase.value_set Pickle.dumps (KInt 0) (PyInt 1) NoFault
      fresh =
      Return (DataBase.set_value (KInt 0) (PyInt 1) (data fresh)).1 s1 ∧
    SynchronizedDataBase.value_set Pickle.dumps (KInt 0) (PyInt 2) NoFault s1 =
      Return false s2 ∧
    data s2 = data s1 ∧ files s2 = files s1 ∧
    data s2 !! KInt 0 = Some (default (PyInt 1) (data fresh !! KInt 0)).
Proof.
  exact (second_value_set_is_refused Pickle.dumps (KInt 0) (PyInt 1)
           (PyInt 2) fresh (fresh_gates_available ∅)).
Defined.

(** X18.  On a store that has its gates (one built in mode ['threads'] or
    ['processes']), a [value_set] that finds fewer free slots than the read
    limit does not give up: it takes the write lock, the mutex and every
    slot that is free, and then waits.  While it waits it has changed
    neither the mapping nor the files, no slot is left for a reader, and
    the write lock is held against other writers. *)
Theorem value_set_waits_short_of_slots (dumps : store -> list byte)
    (key : pykey) (value : pyobj) (io : io_fault) (s : state) :
  has_gates s = true →
  write_lock s ≠ OwnedElsewhere → mutex s ≠ OwnedElsewhere →
  (sem_count (read_semaphore s) < read_limit s)%nat →
  ∃ s', SynchronizedDataBase.value_set dumps key value io s = Blocked s' ∧
        data s' = data s ∧ files s' = files s ∧
        write_lock s' = acquired (write_lock s) ∧
        mutex s' = acquired (mutex s) ∧
        sem_count (read_semaphore s') = 0%nat.
Proof.
  intros Hg Hw Hm Hn. rewrite value_set_blocks by done.
  eexists. split; [ reflexivity | ].
  destruct s as [d f fm rl hg mu [c mx] wl fs cs]. simpl. done.
Qed.

Lemma value_set_waits_short_of_slots_witness :
  ∃ s', SynchronizedDataBase.value_set Pickle.dumps (KInt 0) (PyInt 1)
          NoFault (set_semaphore (Semaphore 9 10) fresh) = Blocked s' ∧
        data s' = data (set_semaphore (Semaphore 9 10) fresh) ∧
        files s' = files (set_semaphore (Semaphore 9 10) fresh) ∧
        write_lock s' =
          acquired (write_lock (set_semaphore (Semaphore 9 10) fresh)) ∧
        mutex s' = acquired (mutex (set_semaphore (Semaphore 9 10) fresh)) ∧
        sem_count (read_semaphore s') = 0%nat.
Proof.
  refine (value_set_waits_short_of_slots Pickle.dumps (KInt 0) (PyInt 1)
            NoFault (set_semaphore (Semaphore 9 10) fresh) _ _ _ _).
  - reflexivity.
  - discriminate.
  - discriminate.
  - simpl. lia.
Defined.

(** X19.  One failed [value_set] stalls the store.  On a store whose free
    slots are exactly its read limit, after a [value_set] whose [save]
    failed every later [value_get] waits for a slot and every later
    [value_set] waits in its drain, whatever their arguments. *)
Theorem failed_value_set_stalls_store (dumps : store -> list byte)
    (loads : list byte -> option store) (key : pykey) (value : pyobj)
    (io : io_fault) (s : state) :
  io ≠ NoFault →
  gates_available (read_limit s) s →
  sem_count (read_semaphore s) = read_limit s →
  (0 < read_limit s)%nat →
  ∃ e s',
    SynchronizedDataBase.value_set dumps key value io s = Raise e s' ∧
    (∀ k io', ∃ s'',
        SynchronizedDataBase.value_get loads k io' s' = Blocked s'') ∧
    (∀ k v io', ∃ s'',
        SynchronizedDataBase.value_set dumps k v io' s' = Blocked s'').
Proof.
  intros Hio Ha Hc Hpos.
  destruct (value_set_raises_full dumps key value io s Hio Ha)
    as (e & s' & Hr & Hg' & Hrl & Hwl & Hmu & Hsem).
  destruct Ha as (Hg & Hw & Hm & Hf & Hn & Hmax).
  assert (H0 : sem_count (read_semaphore s') = 0%nat).
  { rewrite Hsem. unfold drained. simpl. lia. }
  exists e, s'. split; [ exact Hr | ]. split.
  - intros k io'. rewrite value_get_blocks by done. eauto.
  - intros k v io'. rewrite value_set_blocks; [ eauto | done | | | ].
    + rewrite Hwl. by destruct (write_lock s).
    + rewrite Hmu. by destruct (mutex s).
    + rewrite H0, Hrl. done.
Qed.

Lemma failed_value_set_stalls_store_witness :
  ∃ e s',
    SynchronizedDataBase.value_set Pickle.dumps (KInt 0) (PyInt 1)
      TransferFails fresh = Raise e s' ∧
    (∀ k io', ∃ s'',
        SynchronizedDataBase.value_get Pickle.loads k io' s' = Blocked s'') ∧
    (∀ k v io', ∃ s'',
        SynchronizedDataBase.value_set Pickle.dumps k v io' s'
        = Blocked s'').
Proof.
  refine (failed_value_set_stalls_store Pickle.dumps Pickle.loads (KInt 0)
            (PyInt 1) TransferFails fresh _ (fresh_gates_available ∅) _ _).
  - discriminate.
  - reflexivity.
  - simpl. lia.
Defined.

(** X20.  One failed [value_get] stalls the writers.  On a store with no
    more free slots than its read limit, after a [value_get] whose [load]
    failed every later [value_set] waits in its drain, for the slot that
    was not given back. *)
Theorem failed_value_get_stalls_writers (dumps : store -> list byte)
    (loads : list byte -> option store) (key : pykey) (io : io_fault)
    (s : state) :
  load_fails loads io s →
  slot_available s →
  write_lock s ≠ OwnedElsewhere → mutex s ≠ OwnedElsewhere →
  (sem_count (read_semaphore s) ≤ read_limit s)%nat →
  ∃ e s',
    SynchronizedDataBase.value_get loads key io s = Raise e s' ∧
    (∀ k v io', ∃ s'',
        SynchronizedDataBase.value_set dumps k v io' s' = Blocked s'').
Proof.
  intros Hbad Ha Hw Hm Hc.
  destruct (value_get_raises_full loads key io s Hbad Ha)
    as (e & s' & Hr & Hg' & Hrl & Hwl & Hmu & Hsem).
  destruct Ha as (Hg & Hf & Hn & Hmax).
  exists e, s'. split; [ exact Hr | ].
  intros k v io'. rewrite value_set_blocks; [ eauto | done | | | ].
  - by rewrite Hwl.
  - by rewrite Hmu.
  - rewrite Hsem, Hrl. unfold drained. simpl. lia.
Qed.

Lemma failed_value_get_stalls_writers_witness :
  ∃ e s',
    SynchronizedDataBase.value_get Pickle.loads (KInt 0) NoFault
      (set_files {["test.pkl" := [x00]]} fresh) = Raise e s' ∧
    (∀ k v io', ∃ s'',
        SynchronizedDataBase.value_set Pickle.dumps k v io' s'
        = Blocked s'').
Proof.
  refine (failed_value_get_stalls_writers Pickle.dumps Pickle.loads (KInt 0)
            NoFault (set_files {["test.pkl" := [x00]]} fresh) _ _ _ _ _).
  - exists [x00]. split; [ | right ]; vm_compute; reflexivity.
  - unfold slot_available. simpl. repeat split; (done || lia).
  - discriminate.
  - discriminate.
  - simpl. lia.
Defined.

(** ** The drivers: what a writer and a reader do to the store *)

Set Warnings "-clear-no-such-hyp".

Lemma set_value_lookup_ne (key key' : pykey) (value : pyobj) (d : store) :
  key ≠ key' → (DataBase.set_value key value d).2 !! key' = d !! key'.
Proof.
  intros Hne. unfold DataBase.set_value.
  destruct (d !! key); simpl; [ done | by rewrite lookup_insert_ne ].
Qed.

Lemma set_value_result (key : pykey) (value : pyobj) (d : store) :
  (DataBase.set_value key value d).1 =
  match d !! key with None => true | Some _ => false end.
Proof. unfold DataBase.set_value. by destruct (d !! key). Qed.

Lemma range_NoDup (n : nat) : NoDup (range n).
Proof.
  unfold range. apply NoDup_fmap_2; [ | apply NoDup_seq ].
  intros a b. lia.
Qed.

Lemma written_other (writer_id : pyobj) (keys : list Z) (d : store)
    (k : pykey) :
  k ∉ KInt <$> keys → written writer_id keys d !! k = d !! k.
Proof.
  revert d. induction keys as [ | x l IH ]; intros d Hk; [ done | ].
  simpl. rewrite IH by set_solver.
  apply set_value_lookup_ne. set_solver.
Qed.

Lemma written_lookup (writer_id : pyobj) (keys : list Z) (d : store)
    (i : Z) :
  i ∈ keys →
  written writer_id keys d !! KInt i = Some (default writer_id (d !! KInt i)).
Proof.
  revert d. induction keys as [ | x l IH ]; intros d Hi.
  - by apply elem_of_nil in Hi.
  - simpl. destruct (decide (i ∈ l)) as [ Hl | Hl ].
    + rewrite IH by done. f_equal.
      destruct (decide (x = i)) as [ -> | Hne ].
      * rewrite lookup_set_default. by destruct (d !! KInt i).
      * rewrite set_value_lookup_ne by congruence. done.
    + assert (x = i) as -> by set_solver.
      rewrite written_other.
      * apply lookup_set_default.
      * intros Hin. apply list_elem_of_fmap in Hin as (j & Hj & Hjl).
        injection Hj as <-. done.
Qed.

Lemma written_present (writer_id : pyobj) (keys : list Z) (d : store) :
  (∀ i, i ∈ keys → is_Some (d !! KInt i)) → written writer_id keys d = d.
Proof.
  revert d. induction keys as [ | x l IH ]; intros d Hall; [ done | ].
  simpl. destruct (Hall x) as [ v Hv ]; [ set_solver | ].
  unfold DataBase.set_value at 1. rewrite Hv. simpl.
  apply IH. intros i Hi. apply Hall. set_solver.
Qed.

Lemma writer_lines_ext (writer_id : pyobj) (keys : list Z) (d1 d2 : store) :
  (∀ i, i ∈ keys → d1 !! KInt i = d2 !! KInt i) →
  writer_lines writer_id keys d1 = writer_lines writer_id keys d2.
Proof.
  induction keys as [ | x l IH ]; intros Hall; [ done | ].
  unfold writer_lines in *. simpl.
  rewrite (Hall x) by set_solver. do 2 f_equal.
  apply IH. intros i Hi. apply Hall. set_solver.
Qed.

Lemma writer_lines_present (writer_id : pyobj) (keys : list Z) (d : store) :
  (∀ i, i ∈ keys → is_Some (d !! KInt i)) →
  writer_lines writer_id keys d =
  keys ≫= (fun i => [Print (skipped_line writer_id i); Sleep 1]).
Proof.
  induction keys as [ | x l IH ]; intros Hall; [ done | ].
  unfold writer_lines in *. simpl.
  destruct (Hall x) as [ v Hv ]; [ set_solver | ]. rewrite Hv.
  do 2 f_equal. apply IH. intros i Hi. apply Hall. set_solver.
Qed.

Lemma same_gates_refl (s : state) : same_gates s s.
Proof. by unfold same_gates. Qed.

Lemma same_gates_trans (s1 s2 s3 : state) :
  same_gates s1 s2 → same_gates s2 s3 → same_gates s1 s3.
Proof. unfold same_gates. intuition congruence. Qed.

Lemma same_gates_available (n : nat) (s s' : state) :
  same_gates s s' → gates_available n s → gates_available n s'.
Proof.
  unfold same_gates, gates_available.
  intros (-> & _ & _ & -> & -> & -> & ->). done.
Qed.

Lemma same_gates_slot (s s' : state) :
  same_gates s s' → slot_available s → slot_available s'.
Proof.
  unfold same_gates, slot_available.
  intros (-> & _ & _ & -> & _ & -> & _). done.
Qed.

Section Drivers.

Variable dumps : store -> list byte.
Variable loads : list byte -> option store.

Local Arguments SynchronizedDataBase.value_set : simpl never.
Local Arguments SynchronizedDataBase.value_get : simpl never.

Lemma writer_loop_returns (io : Z -> io_fault) (writer_id : pyobj)
    (keys : list Z) (out : list driver_event) (s : state) :
  NoDup keys →
  (∀ i, i ∈ keys → io i = NoFault) →
  gates_available (read_limit s) s →
  ∃ s',
    for_in keys (fun i =>
      do* success :=
        call (SynchronizedDataBase.value_set dumps (KInt i) writer_id
                (io i)) in
      (if success : bool
       then print (set_line writer_id i)
       else print (skipped_line writer_id i)) >>>
      sleep 1) out s =
    (Return tt s', out ++ writer_lines writer_id keys (data s)) ∧
    same_gates s s' ∧
    data s' = written writer_id keys (data s) ∧
    files s' = match keys with
               | [] => files s
               | _ => <[filename s := dumps (data s')]> (files s)
               end.
Proof.
  revert out s. induction keys as [ | x l IH ]; intros out s Hnd Hio Ha.
  - exists s. simpl. unfold dret, writer_lines. simpl.
    rewrite app_nil_r. split; [ done | ].
    split; [ apply same_gates_refl | done ].
  - apply NoDup_cons in Hnd as (Hx & Hnd).
    simpl. unfold dbind at 1 2. unfold call at 1.
    rewrite (Hio x) by set_solver.
    rewrite value_set_returns by done.
    set (d1 := (DataBase.set_value (KInt x) writer_id (data s)).2).
    set (s1 := set_files _ _).
    assert (G1 : same_gates s s1).
    { destruct s. unfold same_gates. simpl. done. }
    assert (Hout : ∀ o,
      (dbind (if (DataBase.set_value (KInt x) writer_id (data s)).1
              then print (set_line writer_id x)
              else print (skipped_line writer_id x))
         (fun _ => sleep 1)) o s1 =
      (Return tt s1,
       o ++ [Print (match data s !! KInt x with
                    | None => set_line writer_id x
                    | Some _ => skipped_line writer_id x
                    end); Sleep 1])).
    { intros o. rewrite set_value_result.
      destruct (data s !! KInt x); unfold dbind, print, sleep; simpl;
        by rewrite <- app_assoc. }
    rewrite Hout. clear Hout.
    destruct (IH (out ++ [Print (match data s !! KInt x with
                                 | None => set_line writer_id x
                                 | Some _ => skipped_line writer_id x
                                 end); Sleep 1]) s1 Hnd)
      as (s' & Hrun & G2 & Hd & Hf').
    { intros i Hi. apply Hio. set_solver. }
    { destruct G1 as (_ & _ & -> & _). by apply (same_gates_available _ s). }
    exists s'. rewrite Hrun. split; [ | split; [ | split ] ].
    + f_equal. rewrite <- app_assoc. simpl. do 3 f_equal.
      apply writer_lines_ext. intros i Hi.
      apply set_value_lookup_ne. intros [= ->]. done.
    + by apply (same_gates_trans s s1).
    + rewrite Hd. reflexivity.
    + rewrite Hf'. destruct l as [ | y l ].
      * simpl in Hd. rewrite Hd. reflexivity.
      * replace (filename s1) with (filename s) by (by destruct s).
        replace (files s1) with (<[filename s := dumps d1]> (files s))
          by (by destruct s).
        by rewrite insert_insert_eq.
Qed.

Lemma reader_loop_returns (io : Z -> io_fault) (reader_id : pyobj)
    (keys : list Z) (out : list driver_event) (s : state) (d : store) :
  (∀ i, i ∈ keys → io i = NoFault) →
  snapshot loads s = Some d → slot_available s →
  ∃ s',
    for_in keys (fun i =>
      do* value :=
        call (SynchronizedDataBase.value_get loads (KInt i) (io i)) in
      print (got_line reader_id value i) >>>
      sleep 1) out s =
    (Return tt s', out ++ reader_lines reader_id keys d) ∧
    same_gates s s' ∧ files s' = files s ∧
    data s' = match keys with [] => data s | _ => d end.
Proof.
  clear dumps.
  revert out s. induction keys as [ | x l IH ]; intros out s Hio Hd Ha.
  - exists s. simpl. unfold dret, reader_lines. simpl.
    rewrite app_nil_r. split; [ done | ].
    split; [ apply same_gates_refl | done ].
  - simpl. unfold dbind at 1 2. unfold call at 1.
    rewrite (Hio x) by set_solver.
    rewrite (value_get_returns loads (KInt x) s d) by done.
    set (s1 := set_data _ _).
    assert (G1 : same_gates s s1).
    { destruct s. unfold same_gates. simpl. done. }
    assert (F1 : files s1 = files s) by (by destruct s).
    unfold dbind at 1. unfold print at 1. unfold sleep at 1.
    destruct (IH ((out ++ [Print (got_line reader_id
                                    (DataBase.get_value (KInt x) d) x)])
                  ++ [Sleep 1]) s1)
      as (s' & Hrun & G2 & Hf' & Hd').
    { intros i Hi. apply Hio. set_solver. }
    { unfold snapshot in *. destruct G1 as (_ & -> & _). by rewrite F1. }
    { by apply (same_gates_slot s). }
    exists s'. rewrite Hrun. split; [ | split; [ | split ] ].
    + f_equal. rewrite <- !app_assoc. reflexivity.
    + by apply (same_gates_trans s s1).
    + congruence.
    + rewrite Hd'. destruct l; [ by destruct s | done ].
Qed.

End Drivers.

(** X21.  A writer that meets no failure returns, having bound to its id
    each of the keys 0 to 9 that was free and left every other binding as
    it was; the file holds the pickle of the resulting mapping and the
    gates are as before.  Between its first and its last line it prints,
    key by key, "set value" for the keys that were free and "skipped" for
    the others, each followed by a pause of one second. *)
Theorem writer_binds_free_keys (dumps : store -> list byte)
    (io : Z -> io_fault) (writer_id : pyobj) (out : list driver_event)
    (s : state) :
  (∀ i, i ∈ range 10 → io i = NoFault) →
  gates_available (read_limit s) s →
  ∃ s',
    ThreadTest.writer dumps io writer_id out s =
      (Return tt s',
       out ++ [Print [Lit "Writer "; Val writer_id; Lit " started"]] ++
       writer_lines writer_id (range 10) (data s) ++
       [Print [Lit "Writer "; Val writer_id; Lit " finished"]]) ∧
    (∀ i, i ∈ range 10 →
          data s' !! KInt i = Some (default writer_id (data s !! KInt i))) ∧
    (∀ k, k ∉ KInt <$> range 10 → data s' !! k = data s !! k) ∧
    files s' = <[filename s := dumps (data s')]> (files s) ∧
    same_gates s s'.
Proof.
  intros Hio Ha. unfold ThreadTest.writer.
  unfold dbind at 1. unfold print at 1. unfold dbind at 1.
  destruct (writer_loop_returns dumps io writer_id (range 10)
              (out ++ [Print [Lit "Writer "; Val writer_id; Lit " started"]])
              s (range_NoDup 10) Hio Ha)
    as (s' & Hrun & G & Hd & Hf).
  rewrite Hrun. unfold print. exists s'.
  split; [ by rewrite <- !app_assoc | ].
  split; [ intros i Hi; rewrite Hd; by apply written_lookup | ].
  split; [ intros k Hk; rewrite Hd; by apply written_other | ].
  done.
Qed.

Lemma writer_binds_free_keys_witness :
  ∃ s',
    ThreadTest.writer Pickle.dumps (fun _ => NoFault) (PyInt 1) []
      (set_data {[KInt 3 := PyInt 0]} fresh) =
      (Return tt s',
       [] ++ [Print [Lit "Writer "; Val (PyInt 1); Lit " started"]] ++
       writer_lines (PyInt 1) (range 10)
         (data (set_data {[KInt 3 := PyInt 0]} fresh)) ++
       [Print [Lit "Writer "; Val (PyInt 1); Lit " finished"]]) ∧
    (∀ i, i ∈ range 10 →
          data s' !! KInt i =
          Some (default (PyInt 1)
                  (data (set_data {[KInt 3 := PyInt 0]} fresh) !! KInt i))) ∧
    (∀ k, k ∉ KInt <$> range 10 →
          data s' !! k =
          data (set_data {[KInt 3 := PyInt 0]} fresh) !! k) ∧
    files s' =
      <[filename (set_data {[KInt 3 := PyInt 0]} fresh)
          := Pickle.dumps (data s')]>
        (files (set_data {[KInt 3 := PyInt 0]} fresh)) ∧
    same_gates (set_data {[KInt 3 := PyInt 0]} fresh) s'.
Proof.
  refine (writer_binds_free_keys Pickle.dumps (fun _ => NoFault) (PyInt 1) []
            (set_data {[KInt 3 := PyInt 0]} fresh) _
            (fresh_gates_available _)).
  reflexivity.
Defined.

(** X22.  The first writer wins.  When one writer has run, a second writer
    that runs after it on the same store skips every key: it prints ten
    "skipped" lines and changes neither the mapping nor the files, so every
    key keeps the value the first run left. *)
Theorem second_writer_changes_nothing (dumps : store -> list byte)
    (io1 io2 : Z -> io_fault) (id1 id2 : pyobj) (out : list driver_event)
    (s : state) :
  (∀ i, i ∈ range 10 → io1 i = NoFault ∧ io2 i = NoFault) →
  gates_available (read_limit s) s →
  ∃ s1 out1 s2,
    ThreadTest.writer dumps io1 id1 out s = (Return tt s1, out1) ∧
    ThreadTest.writer dumps io2 id2 out1 s1 =
      (Return tt s2,
       out1 ++ [Print [Lit "Writer "; Val id2; Lit " started"]] ++
       (range 10 ≫= (fun i => [Print (skipped_line id2 i); Sleep 1])) ++
       [Print [Lit "Writer "; Val id2; Lit " finished"]]) ∧
    data s2 = data s1 ∧ files s2 = files s1.
Proof.
  intros Hio Ha. unfold ThreadTest.writer.
  unfold dbind at 1. unfold print at 1. unfold dbind at 1.
  destruct (writer_loop_returns dumps io1 id1 (range 10)
              (out ++ [Print [Lit "Writer "; Val id1; Lit " started"]])
              s (range_NoDup 10)) as (s1 & Hrun1 & G1 & Hd1 & Hf1);
    [ intros i Hi; apply (proj1 (Hio i Hi)) | done | ].
  rewrite Hrun1. unfold print at 1.
  eexists s1, _.
  assert (Hall : ∀ i, i ∈ range 10 → is_Some (data s1 !! KInt i)).
  { intros i Hi. rewrite Hd1, written_lookup by done. eauto. }
  unfold dbind at 1. unfold print at 1. unfold dbind at 1.
  match goal with
  | |- context [ for_in _ _ ?o s1 ] =>
      destruct (writer_loop_returns dumps io2 id2 (range 10) o s1
                  (range_NoDup 10)) as (s2 & Hrun2 & G2 & Hd2 & Hf2)
  end;
    [ intros i Hi; apply (proj2 (Hio i Hi))
    | pose proof G1 as (_ & _ & Hrl & _); rewrite Hrl;
      by apply (same_gates_available _ s)
    | ].
  exists s2. split; [ reflexivity | ].
  rewrite Hrun2. unfold print.
  rewrite written_present in Hd2 by done.
  split; [ | split; [ done | ] ].
  - rewrite (writer_lines_present id2 (range 10) (data s1) Hall).
    by rewrite <- !app_assoc.
  - change (files s2 = <[filename s1 := dumps (data s2)]> (files s1))
      in Hf2.
    change (files s1 = <[filename s := dumps (data s1)]> (files s)) in Hf1.
    rewrite Hf2, Hd2, Hf1. destruct G1 as (_ & -> & _).
    by rewrite insert_insert_eq.
Qed.

Lemma second_writer_changes_nothing_witness :
  ∃ s1 out1 s2,
    ThreadTest.writer Pickle.dumps (fun _ => NoFault) (PyInt 0) [] fresh =
      (Return tt s1, out1) ∧
    ThreadTest.writer Pickle.dumps (fun _ => NoFault) (PyInt 1) out1 s1 =
      (Return tt s2,
       out1 ++ [Print [Lit "Writer "; Val (PyInt 1); Lit " started"]] ++
       (range 10 ≫= (fun i => [Print (skipped_line (PyInt 1) i); Sleep 1])) ++
       [Print [Lit "Writer "; Val (PyInt 1); Lit " finished"]]) ∧
    data s2 = data s1 ∧ files s2 = files s1.
Proof.
  refine (second_writer_changes_nothing Pickle.dumps (fun _ => NoFault)
            (fun _ => NoFault) (PyInt 0) (PyInt 1) [] fresh _
            (fresh_gates_available ∅)).
  intros i _. split; reflexivity.
Defined.

(** X23.  A reader that meets no failure prints, for each of the keys 0 to
    4, what the snapshot binds the key to ([None] when it does not), each
    line followed by a pause of one second.  It leaves the snapshot mapping
    in memory, the files untouched and the gates as before. *)
Theorem reader_reports_snapshot (loads : list byte -> option store)
    (io : Z -> io_fault) (reader_id : pyobj) (out : list driver_event)
    (s : state) (d : store) :
  (∀ i, i ∈ range 5 → io i = NoFault) →
  snapshot loads s = Some d → slot_available s →
  ∃ s',
    ThreadTest.reader loads io reader_id out s =
      (Return tt s',
       out ++ [Print [Lit "Reader "; Val reader_id; Lit " started"]] ++
       reader_lines reader_id (range 5) d ++
       [Print [Lit "Reader "; Val reader_id; Lit " finished"]]) ∧
    data s' = d ∧ files s' = files s ∧ same_gates s s'.
Proof.
  intros Hio Hd Ha. unfold ThreadTest.reader.
  unfold dbind at 1. unfold print at 1. unfold dbind at 1.
  destruct (reader_loop_returns loads io reader_id (range 5)
              (out ++ [Print [Lit "Reader "; Val reader_id; Lit " started"]])
              s d Hio Hd Ha)
    as (s' & Hrun & G & Hf & Hd').
  rewrite Hrun. unfold print. exists s'.
  split; [ by rewrite <- !app_assoc | done ].
Qed.

Lemma reader_reports_snapshot_witness :
  ∃ s',
    ThreadTest.reader Pickle.loads (fun _ => NoFault) (PyInt 7) []
      (with_snapshot {[KInt 0 := PyInt 1]} fresh) =
      (Return tt s',
       [] ++ [Print [Lit "Reader "; Val (PyInt 7); Lit " started"]] ++
       reader_lines (PyInt 7) (range 5) {[KInt 0 := PyInt 1]} ++
       [Print [Lit "Reader "; Val (PyInt 7); Lit " finished"]]) ∧
    data s' = {[KInt 0 := PyInt 1]} ∧
    files s' = files (with_snapshot {[KInt 0 := PyInt 1]} fresh) ∧
    same_gates (with_snapshot {[KInt 0 := PyInt 1]} fresh) s'.
Proof.
  refine (reader_reports_snapshot Pickle.loads (fun _ => NoFault) (PyInt 7)
            [] (with_snapshot {[KInt 0 := PyInt 1]} fresh)
            {[KInt 0 := PyInt 1]} _ _ (snapshot_slot_available _)).
  - reflexivity.
  - unfold snapshot, with_snapshot. simpl. rewrite lookup_insert_eq.
    apply loads_dumps.
Defined.

(** X24.  A writer process that meets no failure, and whose gates are free
    for a writer (the three gates it creates, or adopts from the global
    names when these exist: neither mutex owned elsewhere, at least ten
    slots of the semaphore free, its count within its maximum), starts from
    the mapping on disk (the empty one when there is no file), binds to its
    id each of the keys 0 to 9 that this mapping leaves free, and leaves
    the pickle of the result in the file.  Started on a disk without the
    file it binds all ten keys; started after another writer has finished
    it binds none. *)
Theorem process_writer_extends_disk (dumps : store -> list byte)
    (loads : list byte -> option store) (file_name : string)
    (writer_id : pyobj) (io_init : io_fault) (io : Z -> io_fault)
    (fs : gmap string (list byte)) (ns : gmap string kernel_object)
    (d0 : store) :
  match fs !! file_name with
  | Some bytes => loads bytes = Some d0 ∧ io_init = NoFault
  | None => d0 = ∅
  end →
  gates_free "processes" ns →
  (∀ i, i ∈ range 10 → io i = NoFault) →
  ∃ s',
    ProcessTest.writer dumps loads file_name writer_id io_init io fs ns =
      (Return tt s',
       [Print [Lit "Writer "; Val writer_id; Lit " started"]] ++
       writer_lines writer_id (range 10) d0 ++
       [Print [Lit "Writer "; Val writer_id; Lit " finished"]]) ∧
    (∀ i, i ∈ range 10 →
          data s' !! KInt i = Some (default writer_id (d0 !! KInt i))) ∧
    (∀ k, k ∉ KInt <$> range 10 → data s' !! k = d0 !! k) ∧
    files s' = <[file_name := dumps (data s')]> fs.
Proof.
  intros Hd Hn Hio. unfold ProcessTest.writer, ProcessTest.with_db.
  destruct (init_returns loads file_name "processes" io_init fs ns d0 Hd
              (gates_free_succeeds _ _ Hn))
    as (s & -> & Hdata & Hfiles & Hname & Hrl & Hfm & Hg).
  pose proof (gates_free_available _ _ s Hn Hrl Hfm Hg) as Ha.
  unfold dbind at 1. unfold print at 1. unfold dbind at 1.
  match goal with
  | |- context [ for_in _ _ ?o s ] =>
      destruct (writer_loop_returns dumps io writer_id (range 10) o s
                  (range_NoDup 10) Hio Ha)
        as (s' & Hrun & G & Hd' & Hf)
  end.
  rewrite Hrun. unfold print. exists s'.
  change (files s' = <[filename s := dumps (data s')]> (files s)) in Hf.
  rewrite Hdata in Hd' |- *. rewrite Hname, Hfiles in Hf.
  split; [ by rewrite <- !app_assoc | ].
  split; [ intros i Hi; rewrite Hd'; by apply written_lookup | ].
  split; [ intros k Hk; rewrite Hd'; by apply written_other | ].
  exact Hf.
Qed.

Lemma process_writer_extends_disk_witness :
  ∃ s',
    ProcessTest.writer Pickle.dumps Pickle.loads "test.pkl" (PyInt 1)
      NoFault (fun _ => NoFault)
      {["test.pkl" := Pickle.dumps {[KInt 2 := PyInt 0]}]}
      {["Global\ReadSemaphore" := KSemaphore (Semaphore 20 20)]} =
      (Return tt s',
       [Print [Lit "Writer "; Val (PyInt 1); Lit " started"]] ++
       writer_lines (PyInt 1) (range 10) {[KInt 2 := PyInt 0]} ++
       [Print [Lit "Writer "; Val (PyInt 1); Lit " finished"]]) ∧
    (∀ i, i ∈ range 10 →
          data s' !! KInt i =
          Some (default (PyInt 1)
                  (({[KInt 2 := PyInt 0]} : store) !! KInt i))) ∧
    (∀ k, k ∉ KInt <$> range 10 →
          data s' !! k = ({[KInt 2 := PyInt 0]} : store) !! k) ∧
    files s' =
      <["test.pkl" := Pickle.dumps (data s')]>
        {["test.pkl" := Pickle.dumps {[KInt 2 := PyInt 0]}]}.
Proof.
  refine (process_writer_extends_disk Pickle.dumps Pickle.loads "test.pkl"
            (PyInt 1) NoFault (fun _ => NoFault)
            {["test.pkl" := Pickle.dumps {[KInt 2 := PyInt 0]}]}
            {["Global\ReadSemaphore" := KSemaphore (Semaphore 20 20)]}
            {[KInt 2 := PyInt 0]} _ _ _).
  - rewrite lookup_singleton_eq. split; [ apply loads_dumps | reflexivity ].
  - exists Unowned, (Semaphore 20 20), Unowned.
    split; [ vm_compute; reflexivity | ].
    repeat split; (discriminate || simpl; lia).
  - reflexivity.
Defined.

(** X25.  A reader process that meets no failure, and that finds a free
    slot on the semaphore it creates or adopts (a count above zero and
    within the maximum; the two mutexes may be in any state), prints, for
    each of the keys 0 to 4, what the mapping on disk binds the key to; on
    a disk without the file it prints [None] five times.  It leaves the
    files as they are: it never creates the snapshot. *)
Theorem process_reader_reports_disk (loads : list byte -> option store)
    (file_name : string) (reader_id : pyobj) (io_init : io_fault)
    (io : Z -> io_fault) (fs : gmap string (list byte))
    (ns : gmap string kernel_object) (d0 : store) :
  match fs !! file_name with
  | Some bytes => loads bytes = Some d0 ∧ io_init = NoFault
  | None => d0 = ∅
  end →
  slot_free "processes" ns →
  (∀ i, i ∈ range 5 → io i = NoFault) →
  ∃ s',
    ProcessTest.reader loads file_name reader_id io_init io fs ns =
      (Return tt s',
       [Print [Lit "Reader "; Val reader_id; Lit " started"]] ++
       reader_lines reader_id (range 5) d0 ++
       [Print [Lit "Reader "; Val reader_id; Lit " finished"]]) ∧
    files s' = fs.
Proof.
  intros Hd Hn Hio. unfold ProcessTest.reader, ProcessTest.with_db.
  destruct (init_returns loads file_name "processes" io_init fs ns d0 Hd
              (slot_free_succeeds _ _ Hn))
    as (s & -> & Hdata & Hfiles & Hname & Hrl & Hfm & Hg).
  pose proof (slot_free_available _ _ s Hn Hfm Hg) as Ha.
  assert (Hsnap : snapshot loads s = Some d0).
  { unfold snapshot. rewrite Hfiles, Hname.
    destruct (fs !! file_name); [ apply Hd | by rewrite Hd ]. }
  unfold dbind at 1. unfold print at 1. unfold dbind at 1.
  match goal with
  | |- context [ for_in _ _ ?o s ] =>
      destruct (reader_loop_returns loads io reader_id (range 5) o s d0 Hio
                  Hsnap Ha)
        as (s' & Hrun & G & Hf & Hd')
  end.
  rewrite Hrun. unfold print. exists s'.
  split; [ by rewrite <- !app_assoc | congruence ].
Qed.

Lemma process_reader_reports_disk_witness :
  (∃ s',
     ProcessTest.reader Pickle.loads "test.pkl" (PyInt 3) NoFault
       (fun _ => NoFault)
       {["test.pkl" := Pickle.dumps {[KInt 1 := PyInt 7]}]}
       (<["Global\ReadSemaphore" := KSemaphore (Semaphore 1 10)]>
          {["Global\WriteLock" := KMutex OwnedElsewhere]}) =
       (Return tt s',
        [Print [Lit "Reader "; Val (PyInt 3); Lit " started"]] ++
        reader_lines (PyInt 3) (range 5) {[KInt 1 := PyInt 7]} ++
        [Print [Lit "Reader "; Val (PyInt 3); Lit " finished"]]) ∧
     files s' = {["test.pkl" := Pickle.dumps {[KInt 1 := PyInt 7]}]}) ∧
  (∃ s',
     ProcessTest.reader Pickle.loads "test.pkl" (PyInt 3) TransferFails
       (fun _ => NoFault) ∅ ∅ =
       (Return tt s',
        [Print [Lit "Reader "; Val (PyInt 3); Lit " started"]] ++
        reader_lines (PyInt 3) (range 5) ∅ ++
        [Print [Lit "Reader "; Val (PyInt 3); Lit " finished"]]) ∧
     files s' = ∅).
Proof.
  split.
  - refine (process_reader_reports_disk Pickle.loads "test.pkl" (PyInt 3)
              NoFault (fun _ => NoFault)
              {["test.pkl" := Pickle.dumps {[KInt 1 := PyInt 7]}]}
              (<["Global\ReadSemaphore" := KSemaphore (Semaphore 1 10)]>
                 {["Global\WriteLock" := KMutex OwnedElsewhere]})
              {[KInt 1 := PyInt 7]} _ _ _).
    + rewrite lookup_singleton_eq. split; [ apply loads_dumps | reflexivity ].
    + exists Unowned, (Semaphore 1 10), OwnedElsewhere.
      split; [ vm_compute; reflexivity | ]. simpl. lia.
    + reflexivity.
  - refine (process_reader_reports_disk Pickle.loads "test.pkl" (PyInt 3)
              TransferFails (fun _ => NoFault) ∅ ∅ ∅ _ _ _).
    + reflexivity.
    + exists Unowned, (Semaphore 10 10), Unowned.
      split; [ vm_compute; reflexivity | ]. simpl. lia.
    + reflexivity.
Defined.

(** ** The [__main__] block *)

Lemma exercise_free_key (line : nat) (d : store)
    (k : store -> main_result) :
  d !! key_ = None → exercise line d k = k d.
Proof.
  intros Hk. unfold exercise.
  assert (E : DataBase.set_value key_ value_ d = (true, <[key_ := value_]> d))
    by (unfold DataBase.set_value; by rewrite Hk).
  rewrite E. simpl.
  assert (G : DataBase.get_value key_ (<[key_ := value_]> d) = value_)
    by (unfold DataBase.get_value; by rewrite lookup_insert_eq).
  rewrite G.
  assert (Dl : DataBase.delete key_ (<[key_ := value_]> d) = (value_, d)).
  { unfold DataBase.delete. rewrite lookup_insert_eq. simpl.
    by rewrite delete_insert_id. }
  rewrite Dl. simpl.
  assert (G' : DataBase.get_value key_ d = PyNone)
    by (unfold DataBase.get_value; by rewrite Hk).
  rewrite G'. reflexivity.
Qed.

Lemma exercise_bound_key (line : nat) (d : store)
    (k : store -> main_result) :
  is_Some (d !! key_) → exercise line d k = MainAssertionError line.
Proof.
  intros [v Hv]. unfold exercise, DataBase.set_value. by rewrite Hv.
Qed.

Lemma threads_creation_succeeds (ns : gmap string kernel_object) :
  creation_succeeds "threads" ns.
Proof. intros H. discriminate H. Qed.

(** X26.  The [__main__] block runs through when the snapshot on disk does
    not bind key 0 (so also when there is no file), the file system does
    not fail while an existing snapshot is read, and no create call of
    [db3]'s constructor fails (none of the three global names is taken by
    an object of the other kind): no assertion fails, and the block leaves
    the files as they were, since it changes its stores through
    [set_value] and [delete] only; [db2] and [db3] end with the mapping
    that was on disk.  The state of the gates does not matter: the block
    waits on none of them. *)
Theorem main_passes_when_key_0_is_free (loads : list byte -> option store)
    (io2 io3 : io_fault) (fs : gmap string (list byte))
    (ns : gmap string kernel_object) (d0 : store) :
  match fs !! file_name with
  | Some bytes => loads bytes = Some d0 ∧ io2 = NoFault ∧ io3 = NoFault
  | None => d0 = ∅
  end →
  d0 !! key_ = None →
  creation_succeeds "processes" ns →
  ∃ s2 s3, main loads io2 io3 fs ns = MainDone s2 s3 ∧
           files s2 = fs ∧ files s3 = fs ∧ data s2 = d0 ∧ data s3 = d0.
Proof.
  intros Hd Hk Hn. unfold main.
  rewrite exercise_free_key by reflexivity.
  destruct (init_returns loads file_name "threads" io2 fs ns d0)
    as (s2 & -> & Hd2 & Hf2 & _).
  { destruct (fs !! file_name); [ | done ]. by destruct Hd as (? & ? & ?). }
  { apply threads_creation_succeeds. }
  cbv beta iota. rewrite Hd2, Hf2. rewrite exercise_free_key by done.
  destruct (init_returns loads file_name "processes" io3 fs ns d0)
    as (s3 & -> & Hd3 & Hf3 & _).
  { destruct (fs !! file_name); [ | done ]. by destruct Hd as (? & ? & ?). }
  { done. }
  cbv beta iota. rewrite Hd3. rewrite exercise_free_key by done.
  eexists _, _. split; [ reflexivity | ].
  destruct s2, s3. simpl in *. done.
Qed.

Lemma main_passes_when_key_0_is_free_witness :
  (∃ s2 s3,
     main Pickle.loads NoFault NoFault
       {[file_name := Pickle.dumps {[KInt 5 := PyInt 2]}]}
       (<["Global\ReadSemaphore" := KSemaphore (Semaphore 0 10)]>
          {["Global\WriteLock" := KMutex OwnedElsewhere]}) =
       MainDone s2 s3 ∧
     files s2 = {[file_name := Pickle.dumps {[KInt 5 := PyInt 2]}]} ∧
     files s3 = {[file_name := Pickle.dumps {[KInt 5 := PyInt 2]}]} ∧
     data s2 = {[KInt 5 := PyInt 2]} ∧ data s3 = {[KInt 5 := PyInt 2]}) ∧
  (∃ s2 s3, main Pickle.loads CreateFileFails TransferFails ∅ ∅ =
              MainDone s2 s3 ∧
            files s2 = ∅ ∧ files s3 = ∅ ∧ data s2 = ∅ ∧ data s3 = ∅).
Proof.
  split.
  - refine (main_passes_when_key_0_is_free Pickle.loads NoFault NoFault
              {[file_name := Pickle.dumps {[KInt 5 := PyInt 2]}]}
              (<["Global\ReadSemaphore" := KSemaphore (Semaphore 0 10)]>
                 {["Global\WriteLock" := KMutex OwnedElsewhere]})
              {[KInt 5 := PyInt 2]} _ _ _).
    + rewrite lookup_singleton_eq. split; [ apply loads_dumps | done ].
    + apply lookup_singleton_ne. discriminate.
    + intros _. vm_compute. eauto.
  - refine (main_passes_when_key_0_is_free Pickle.loads CreateFileFails
              TransferFails ∅ ∅ ∅ _ _ _).
    + reflexivity.
    + reflexivity.
    + intros _. vm_compute. eauto.
Defined.

(** X27.  The [__main__] block fails once key 0 is on disk: when the
    snapshot binds key 0, as it does after a writer of the drivers has
    run, [db2] starts with that binding, [db2.set_value(0, 1)] returns
    [False], and the assertion on line 179 fails. *)
Theorem main_fails_when_key_0_is_on_disk (loads : list byte -> option store)
    (io3 : io_fault) (fs : gmap string (list byte))
    (ns : gmap string kernel_object) (bytes : list byte) (d0 : store) :
  fs !! file_name = Some bytes → loads bytes = Some d0 →
  is_Some (d0 !! key_) →
  main loads NoFault io3 fs ns = MainAssertionError 179.
Proof.
  intros Hf Hd Hk. unfold main.
  rewrite exercise_free_key by reflexivity.
  destruct (init_returns loads file_name "threads" NoFault fs ns d0)
    as (s2 & -> & Hd2 & _).
  { by rewrite Hf. }
  { apply threads_creation_succeeds. }
  cbv beta iota. rewrite Hd2. by rewrite exercise_bound_key.
Qed.

Lemma main_fails_when_key_0_is_on_disk_witness :
  main Pickle.loads NoFault NoFault
    {[file_name := Pickle.dumps {[KInt 0 := PyInt 0]}]} ∅ =
  MainAssertionError 179.
Proof.
  refine (main_fails_when_key_0_is_on_disk Pickle.loads NoFault
            {[file_name := Pickle.dumps {[KInt 0 := PyInt 0]}]} ∅
            (Pickle.dumps {[KInt 0 := PyInt 0]}) {[KInt 0 := PyInt 0]}
            _ (loads_dumps _) _).
  - apply lookup_singleton_eq.
  - exists (PyInt 0). reflexivity.
Defined.
